(** * A sequential natural-language-to-SQL pipeline: model and properties

    The program is a Node.js agent that turns a request in plain words into a
    Redshift query through four calls to a text-generation model
    (refine the input, pick an example query, pick tables and columns,
    generate the query) followed by a syntactic validation.

    Sources embedded here:
    - [utils/ollama.js]                 [callOllama]
    - [components/inputRefinement.js]   class [InputRefinement]
    - [components/querySelector.js]     class [QuerySelector]
    - [components/tableSelector.js]     class [TableSelector]
    - [components/queryGenerator.js]    class [QueryGenerator]
    - [aiAgent.js]                      class [AIAgent]

    What lies outside the repository (the model service, [JSON.parse],
    [Date.now], number printing, the prototype objects of the engine) is
    gathered in the class [Host]; every function of the program is
    parameterised by it and every general theorem holds for all hosts.
    Console output is not modelled: it is written and never read back. *)

From Stdlib Require Import String Ascii List ZArith Bool Arith Lia.
From Stdlib Require Import PrimFloat DecimalString Permutation.
Import ListNotations.

#[local] Set Warnings "-register-all".
Local Open Scope list_scope.
Local Open Scope string_scope.

(* ===================================================================== *)
(** * Strings

    A JavaScript string is held as its UTF-8 text. Every string operation
    the program uses ([trim], [endsWith], [includes], a case-insensitive
    literal regular expression, concatenation) acts the same on the UTF-8
    text as on the UTF-16 code units, since the patterns are ASCII and an
    ASCII byte never occurs inside a multi-byte sequence. *)
(* ===================================================================== *)

Module JsString.

(** The double quote and the line feed, which the prompts embed. *)
Definition dq : string := String (ascii_of_nat 34) EmptyString.
Definition nl : string := String (ascii_of_nat 10) EmptyString.

(** [lines ls] is the text of a template literal written over the lines [ls]. *)
Definition lines (ls : list string) : string := String.concat nl ls.

(** Printing of a non-negative integer, as [`${index + 1}`] does. *)
Definition ofNat (n : nat) : string := NilZero.string_of_uint (Nat.to_uint n).

Fixpoint rev_onto (s acc : string) : string :=
  match s with
  | EmptyString => acc
  | String c s' => rev_onto s' (String c acc)
  end.

Definition rev (s : string) : string := rev_onto s EmptyString.

(** [startsWith s p]: [s.startsWith(p)]. *)
Fixpoint startsWith (s p : string) : bool :=
  match p, s with
  | EmptyString, _ => true
  | String _ _, EmptyString => false
  | String b p', String a s' => Ascii.eqb a b && startsWith s' p'
  end.

(** [includes s p]: [s.includes(p)]. *)
Fixpoint includes (s p : string) : bool :=
  startsWith s p ||
  match s with
  | EmptyString => false
  | String _ s' => includes s' p
  end.

(** [endsWith s p]: [s.endsWith(p)]. *)
Definition endsWith (s p : string) : bool := startsWith (rev s) (rev p).

(** Canonicalisation of a character under the [i] flag (no [u] flag): the
    upper-case form, except that a non-ASCII character is never mapped to an
    ASCII one. On UTF-8 text only the bytes [a]..[z] change. *)
Definition canonicalize (c : ascii) : ascii :=
  let n := nat_of_ascii c in
  if ((97 <=? n) && (n <=? 122))%nat then ascii_of_nat (n - 32) else c.

Fixpoint canon (s : string) : string :=
  match s with
  | EmptyString => EmptyString
  | String c s' => String (canonicalize c) (canon s')
  end.

(** [matchesAt s p]: the literal pattern [p] matches at the start of [s],
    ignoring case. *)
Fixpoint matchesAt (s p : string) : bool :=
  match p, s with
  | EmptyString, _ => true
  | String _ _, EmptyString => false
  | String b p', String a s' =>
      Ascii.eqb (canonicalize a) (canonicalize b) && matchesAt s' p'
  end.

(** [regexTestI p s]: [/p/i.test(s)] for a pattern [p] of plain letters. *)
Fixpoint regexTestI (p s : string) : bool :=
  matchesAt s p ||
  match s with
  | EmptyString => false
  | String _ s' => regexTestI p s'
  end.

(** White space and line terminators of ECMAScript, as UTF-8 sequences:
    TAB LF VT FF CR SP; NBSP (C2 A0); U+1680 (E1 9A 80); U+2000..U+200A,
    U+2028, U+2029, U+202F (E2 80 xx); U+205F (E2 81 9F); U+3000 (E3 80 80);
    U+FEFF (EF BB BF). *)
Definition ws1 (a : nat) : bool :=
  (((9 <=? a) && (a <=? 13)) || (a =? 32))%nat.

Definition ws2 (a b : nat) : bool := ((a =? 194) && (b =? 160))%nat.

Definition ws3 (a b c : nat) : bool :=
  (((a =? 225) && (b =? 154) && (c =? 128))
   || ((a =? 226) && (b =? 128)
       && (((128 <=? c) && (c <=? 138)) || (c =? 168) || (c =? 169) || (c =? 175)))
   || ((a =? 226) && (b =? 129) && (c =? 159))
   || ((a =? 227) && (b =? 128) && (c =? 128))
   || ((a =? 239) && (b =? 187) && (c =? 191)))%nat.

(** [trimStart]: drops leading white space. *)
Fixpoint trimStart (s : string) : string :=
  match s with
  | EmptyString => EmptyString
  | String a s1 =>
      if ws1 (nat_of_ascii a) then trimStart s1
      else
        match s1 with
        | EmptyString => s
        | String b s2 =>
            if ws2 (nat_of_ascii a) (nat_of_ascii b) then trimStart s2
            else
              match s2 with
              | EmptyString => s
              | String c s3 =>
                  if ws3 (nat_of_ascii a) (nat_of_ascii b) (nat_of_ascii c)
                  then trimStart s3
                  else s
              end
        end
  end.

(** The same on the reversed text, where each sequence reads backwards. *)
Fixpoint trimStartRev (s : string) : string :=
  match s with
  | EmptyString => EmptyString
  | String a s1 =>
      if ws1 (nat_of_ascii a) then trimStartRev s1
      else
        match s1 with
        | EmptyString => s
        | String b s2 =>
            if ws2 (nat_of_ascii b) (nat_of_ascii a) then trimStartRev s2
            else
              match s2 with
              | EmptyString => s
              | String c s3 =>
                  if ws3 (nat_of_ascii c) (nat_of_ascii b) (nat_of_ascii a)
                  then trimStartRev s3
                  else s
              end
        end
  end.

Definition trimEnd (s : string) : string := rev (trimStartRev (rev s)).

(** [trim s]: [s.trim()]. *)
Definition trim (s : string) : string := trimEnd (trimStart s).

(** [isEmpty s]: [s.length === 0]. *)
Definition isEmpty (s : string) : bool :=
  match s with EmptyString => true | String _ _ => false end.

End JsString.

Import JsString.

(* ===================================================================== *)
(** * Values, exceptions and the host *)
(* ===================================================================== *)

(** JavaScript values as the program meets them: [undefined] and what
    [JSON.parse] builds. An object is the sequence of its own properties. *)
Inductive jsval : Type :=
| VUndefined
| VNull
| VBool (b : bool)
| VNum (f : float)
| VStr (s : string)
| VArr (elems : list jsval)
| VObj (props : list (string * jsval)).

(** A thrown exception: only [message] is ever read by the program. *)
Record JsError : Type := mkError { errName : string; message : string }.

Definition Error (msg : string) : JsError := mkError "Error" msg.
Definition TypeError (msg : string) : JsError := mkError "TypeError" msg.
Definition SyntaxError (msg : string) : JsError := mkError "SyntaxError" msg.

(** The outcome of evaluating an expression or a call. *)
Inductive completion (A : Type) : Type :=
| Return (a : A)
| Throw (e : JsError).

Arguments Return {A} a.
Arguments Throw {A} e.

(** The faults the engine raises by itself in this program; the text of
    their messages is the engine's. *)
Inductive Fault : Type :=
| ReadOfNullish (base key : jsval)              (* [base[key]], [base] undefined or null *)
| NotAFunction (callee : string)                (* [callee(...)], callee not callable *)
| NotPrimitive.                                 (* an object with no usable [toString] *)

(** What a property read finds: a value of the program, or an object or
    function of the engine (a method of a prototype, a prototype itself),
    named by the host. *)
Inductive found : Type :=
| Own (v : jsval)
| Native (name : string).

(** The environment of the program. *)
Class Host : Type := {
  (** [ollama.chat]: the answer to the [n]-th request of the run of the
      machine, given its prompt: the content of the reply, or the message of
      the error it throws. *)
  ollama_chat : nat -> string -> string + string;
  (** [JSON.parse]: the value, or the message of its [SyntaxError]. *)
  JSON_parse : string -> jsval + string;
  (** [Date.now]: the [n]-th reading of the clock, in milliseconds. *)
  Date_now : nat -> Z;
  (** [Number::toString]. *)
  Number_toString : float -> string;
  (** The message of an engine fault. *)
  faultMessage : Fault -> string;
  (** [base[key]] when [key] is not an own property of a plain object
      [base]: what the prototype chain (or, for an array or a string, the
      indices and [length]) gives; [Own VUndefined] when nothing is found. *)
  inheritedGet : jsval -> string -> found;
  (** [o.join(', ')] on a native object [o]. *)
  nativeJoin : string -> completion string
}.

(* ===================================================================== *)
(** * A state-and-exception monad

    [M S A]: a computation over a store [S] that returns an [A] or throws.
    An [await] of the program is a plain sequencing here: the program is
    single-threaded and awaits every promise it creates at once. *)
(* ===================================================================== *)

Definition M (S A : Type) : Type := S -> completion A * S.

Definition ret {S A} (a : A) : M S A := fun s => (Return a, s).

Definition throw {S A} (e : JsError) : M S A := fun s => (Throw e, s).

Definition bind {S A B} (c : M S A) (k : A -> M S B) : M S B :=
  fun s =>
    match c s with
    | (Return a, s') => k a s'
    | (Throw e, s') => (Throw e, s')
    end.

(** [try { body } catch (error) { handler }]. The store keeps what [body]
    did before it threw. *)
Definition tryCatch {S A} (body : M S A) (handler : JsError -> M S A) : M S A :=
  fun s =>
    match body s with
    | (Return a, s') => (Return a, s')
    | (Throw e, s') => handler e s'
    end.

Definition gets {S A} (f : S -> A) : M S A := fun s => (Return (f s), s).

Definition modify {S} (f : S -> S) : M S unit := fun s => (Return tt, f s).

(** Lifting of a pure completion. *)
Definition liftC {S A} (c : completion A) : M S A := fun s => (c, s).

Declare Scope js_scope.
Delimit Scope js_scope with js.
Notation "x <- c ;; k" := (bind c (fun x => k))
  (at level 61, c at next level, right associativity) : js_scope.
Notation "c ;;; k" := (bind c (fun _ => k))
  (at level 61, right associativity) : js_scope.
Local Open Scope js_scope.

(** Pure completions compose the same way. *)
Definition bindC {A B} (c : completion A) (k : A -> completion B) : completion B :=
  match c with
  | Return a => k a
  | Throw e => Throw e
  end.

(** [mapC f l]: [l.map(f)] where [f] may throw; the first throw ends it. *)
Fixpoint mapC {A B} (f : A -> completion B) (l : list A) : completion (list B) :=
  match l with
  | [] => Return []
  | x :: rest =>
      bindC (f x) (fun y => bindC (mapC f rest) (fun ys => Return (y :: ys)))
  end.

(** Sequencing of completions already computed, left to right. *)
Fixpoint sequenceC {A} (l : list (completion A)) : completion (list A) :=
  match l with
  | [] => Return []
  | c :: rest =>
      bindC c (fun y => bindC (sequenceC rest) (fun ys => Return (y :: ys)))
  end.

(* ===================================================================== *)
(** * Operations of the language on values *)
(* ===================================================================== *)

Section ValueOperations.
Context {host : Host}.

(** [ToBoolean]. *)
Definition truthy (v : jsval) : bool :=
  match v with
  | VUndefined | VNull => false
  | VBool b => b
  | VNum f => negb (PrimFloat.eqb f 0%float || PrimFloat.is_nan f)
  | VStr s => negb (isEmpty s)
  | VArr _ | VObj _ => true
  end.

(** The own property [name] of an object. *)
Fixpoint ownProp (props : list (string * jsval)) (name : string) : option jsval :=
  match props with
  | [] => None
  | (k, v) :: rest => if String.eqb k name then Some v else ownProp rest name
  end.

(** [ToString]. An array prints as its elements joined by commas, with
    [undefined] and [null] elements empty; a plain object prints through
    [Object.prototype.toString], unless an own property [toString] (which
    in a parsed value is never callable) hides it: then the conversion
    fails, whatever [valueOf] is. *)
Fixpoint ToString (v : jsval) : completion string :=
  match v with
  | VUndefined => Return "undefined"
  | VNull => Return "null"
  | VBool true => Return "true"
  | VBool false => Return "false"
  | VNum f => Return (Number_toString f)
  | VStr s => Return s
  | VArr elems =>
      bindC
        (sequenceC
           (map (fun e => match e with
                          | VUndefined | VNull => Return ""
                          | _ => ToString e
                          end) elems))
        (fun parts => Return (String.concat "," parts))
  | VObj props =>
      match ownProp props "toString" with
      | Some _ => Throw (TypeError (faultMessage NotPrimitive))
      | None => Return "[object Object]"
      end
  end.

(** [Array.prototype.join] on the elements [elems]. *)
Definition Array_join (elems : list jsval) (sep : string) : completion string :=
  bindC
    (mapC (fun e => match e with
                    | VUndefined | VNull => Return ""
                    | _ => ToString e
                    end) elems)
    (fun parts => Return (String.concat sep parts)).

(** [base.name] for the names this program reads from a parsed reply
    ([selectedQuery], [selectedQueryIndex], [confidence], [reasoning],
    [selectedTables], [selectedColumns]): no prototype of the engine
    defines them, so only own properties of an object answer. *)
Definition getNamed (base : jsval) (name : string) : completion jsval :=
  match base with
  | VUndefined | VNull => Throw (TypeError (faultMessage (ReadOfNullish base (VStr name))))
  | VObj props =>
      Return (match ownProp props name with Some v => v | None => VUndefined end)
  | VBool _ | VNum _ | VStr _ | VArr _ => Return VUndefined
  end.

(** [base[key]] for a key computed by the program. *)
Definition getComputed (base key : jsval) : completion found :=
  match base with
  | VUndefined | VNull => Throw (TypeError (faultMessage (ReadOfNullish base key)))
  | VObj props =>
      bindC (ToString key) (fun k =>
        match ownProp props k with
        | Some v => Return (Own v)
        | None => Return (inheritedGet base k)
        end)
  | VBool _ | VNum _ | VStr _ | VArr _ =>
      bindC (ToString key) (fun k => Return (inheritedGet base k))
  end.

(** [x || d]. Objects and functions of the engine are truthy. *)
Definition orElse (x : found) (d : jsval) : found :=
  match x with
  | Own v => if truthy v then Own v else Own d
  | Native n => Native n
  end.

(** [columns.join(sep)], where [callee] names the callee in a fault. A
    parsed value other than an array has no callable [join]. *)
Definition callJoin (callee : string) (columns : found) (sep : string)
  : completion string :=
  match columns with
  | Own (VArr elems) => Array_join elems sep
  | Own VUndefined => Throw (TypeError (faultMessage (ReadOfNullish VUndefined (VStr "join"))))
  | Own VNull => Throw (TypeError (faultMessage (ReadOfNullish VNull (VStr "join"))))
  | Own (VBool _) | Own (VNum _) | Own (VStr _) | Own (VObj _) =>
      Throw (TypeError (faultMessage (NotAFunction callee)))
  | Native n => nativeJoin n
  end.

(** [xs.map(f)], where [callee] names the callee in a fault. *)
Definition callMap {B} (callee : string) (xs : jsval) (f : jsval -> completion B)
  : completion (list B) :=
  match xs with
  | VArr elems => mapC f elems
  | VUndefined | VNull => Throw (TypeError (faultMessage (ReadOfNullish xs (VStr "map"))))
  | VBool _ | VNum _ | VStr _ | VObj _ =>
      Throw (TypeError (faultMessage (NotAFunction callee)))
  end.

(** [JSON.parse(text)]. *)
Definition JSONparse (text : string) : completion jsval :=
  match JSON_parse text with
  | inl v => Return v
  | inr msg => Throw (SyntaxError msg)
  end.

(** [`${x}`] for a property that is a string when present. *)
Definition showOptional (x : option string) : string :=
  match x with
  | Some s => s
  | None => "undefined"
  end.

End ValueOperations.

(* ===================================================================== *)
(** * The catalogs and the machine *)
(* ===================================================================== *)

(** An entry of the example-query catalog: [{ query, description }]. *)
Module ExampleQuery.
Record t : Type := make { query : string; description : string }.
End ExampleQuery.

(** A column of a table: [{ name, type, description }]; the description
    may be missing. *)
Module Column.
Record t : Type := make { name : string; type : string; description : option string }.
End Column.

(** The metadata of a table: [{ description, columns }]. *)
Module TableMetadata.
Record t : Type := make { description : option string; columns : list Column.t }.
End TableMetadata.

(** The table-metadata catalog is an object used as a map: the sequence of
    its own properties, in the order [Object.keys] and [Object.entries]
    enumerate them. *)
Definition Catalog : Type := list (string * TableMetadata.t).

(** The operations of the components, as recorded when they are entered. *)
Inductive Operation : Type :=
| RefineUserInput
| SelectBestQuery
| SelectTablesAndColumns
| GenerateRedshiftQuery
| ValidateQuery.

(** The store a run acts on: the two catalogs the agent holds
    ([querySelector.exampleQueries], [tableSelector.tableMetadata]) and the
    history of its dealings with the outside: the prompts sent to the model,
    the number of clock readings, and the operations entered, each oldest
    first. The last three are the observable trace of a run. *)
Record Machine : Type := mkMachine {
  exampleQueries : list ExampleQuery.t;
  tableMetadata : Catalog;
  requests : list string;
  clockReads : nat;
  invoked : list Operation
}.

Definition setExampleQueries (qs : list ExampleQuery.t) (m : Machine) : Machine :=
  mkMachine qs (tableMetadata m) (requests m) (clockReads m) (invoked m).

Definition setTableMetadata (c : Catalog) (m : Machine) : Machine :=
  mkMachine (exampleQueries m) c (requests m) (clockReads m) (invoked m).

Definition logRequest (prompt : string) (m : Machine) : Machine :=
  mkMachine (exampleQueries m) (tableMetadata m) (requests m ++ [prompt])%list
            (clockReads m) (invoked m).

Definition logClockRead (m : Machine) : Machine :=
  mkMachine (exampleQueries m) (tableMetadata m) (requests m)
            (S (clockReads m)) (invoked m).

Definition logEnter (op : Operation) (m : Machine) : Machine :=
  mkMachine (exampleQueries m) (tableMetadata m) (requests m)
            (clockReads m) (invoked m ++ [op])%list.

(** Entering an operation of a component. *)
Definition enter (op : Operation) : M Machine unit := modify (logEnter op).

(* ===================================================================== *)
(** * [utils/ollama.js] *)
(* ===================================================================== *)

Module Ollama.
Section Methods.
Context {host : Host}.

(** [ollama.chat({ model, messages: [{ role: 'user', content: prompt }],
    options })]: the request is recorded, and the host answers with the
    content of the reply or throws. The model name and the options are
    fixed by the environment and belong to the host. *)
Definition chat (prompt : string) : M Machine string :=
  fun m =>
    match ollama_chat (List.length (requests m)) prompt with
    | inl content => (Return content, logRequest prompt m)
    | inr msg => (Throw (Error msg), logRequest prompt m)
    end.

(** [callOllama(prompt)]. *)
Definition callOllama (prompt : string) : M Machine string :=
  tryCatch
    (content <- chat prompt ;;
     ret content)
    (fun error =>
       throw (Error ("Ollama API call failed: " ++ message error))).

End Methods.
End Ollama.

Import Ollama.

(* ===================================================================== *)
(** * [components/inputRefinement.js] *)
(* ===================================================================== *)

Module InputRefinement.

Record Result : Type := mkResult {
  original : string;
  refined : string;
  success : bool;
  error : option string          (* present on failure only *)
}.

Definition prompt (userInput : string) : string :=
  lines [
    "";
    "You are an AI assistant that refines user queries for SQL generation. ";
    "Your task is to take a user's natural language query and refine it to be more specific, clear, and suitable for SQL query generation.";
    "";
    "User Input: " ++ dq ++ userInput ++ dq;
    "";
    "Please refine this input by:";
    "1. Clarifying any ambiguous terms";
    "2. Adding specific details that would be helpful for SQL generation";
    "3. Identifying the main intent (SELECT, UPDATE, DELETE, etc.)";
    "4. Suggesting specific data types or ranges where appropriate";
    "";
    "Return only the refined query in a clear, concise format.";
    ""
  ].

Section Methods.
Context {host : Host}.

Definition refineUserInput (userInput : string) : M Machine Result :=
  enter RefineUserInput ;;;
  tryCatch
    (response <- callOllama (prompt userInput) ;;
     ret (mkResult userInput response true None))
    (fun error =>
       ret (mkResult userInput userInput false (Some (message error)))).

End Methods.
End InputRefinement.

(* ===================================================================== *)
(** * [components/querySelector.js] *)
(* ===================================================================== *)

Module QuerySelector.

Record Result : Type := mkResult {
  selectedQuery : jsval;
  selectedQueryIndex : option jsval;   (* set on the parsed path only *)
  confidence : jsval;
  reasoning : jsval;
  success : option bool;               (* [None]: the object has no such property *)
  error : option string
}.

(** [this.exampleQueries.push({ query, description })]. *)
Definition addExampleQuery (query description : string) : M Machine unit :=
  modify (fun m =>
    setExampleQueries (exampleQueries m ++ [ExampleQuery.make query description])%list m).

(** The text of one example, [index] counted from 0. *)
Definition exampleText (index : nat) (example : ExampleQuery.t) : string :=
  lines [
    "";
    "Example " ++ ofNat (index + 1) ++ ":";
    "Description: " ++ ExampleQuery.description example;
    "SQL Query: " ++ ExampleQuery.query example;
    ""
  ].

(** [xs.map((x, index) => f index x)], indices counted from [start]. *)
Fixpoint mapi {A B} (f : nat -> A -> B) (start : nat) (xs : list A) : list B :=
  match xs with
  | [] => []
  | x :: rest => f start x :: mapi f (S start) rest
  end.

Definition exampleQueriesText (examples : list ExampleQuery.t) : string :=
  String.concat nl (mapi exampleText 0 examples).

Definition prompt (examples : list ExampleQuery.t) (userPrompt : string) : string :=
  lines [
    "";
    "You are an expert SQL analyst. Given a user's request and a set of example SQL queries, select the most appropriate example query that best matches the user's intent.";
    "";
    "User Request: " ++ dq ++ userPrompt ++ dq;
    "";
    "Available Example Queries:";
    exampleQueriesText examples;
    "";
    "Please analyze the user request and:";
    "1. Select the example query that best matches the user's intent";
    "2. Provide a confidence score (0-100)";
    "3. Explain your reasoning";
    "";
    "Respond in JSON format:";
    "{";
    "  " ++ dq ++ "selectedQueryIndex" ++ dq ++ ": <index_of_selected_query>,";
    "  " ++ dq ++ "selectedQuery" ++ dq ++ ": " ++ dq ++ "<the_selected_sql_query>" ++ dq ++ ",";
    "  " ++ dq ++ "confidence" ++ dq ++ ": <confidence_score>,";
    "  " ++ dq ++ "reasoning" ++ dq ++ ": " ++ dq ++ "<explanation_of_why_this_query_was_selected>" ++ dq;
    "}";
    ""
  ].

(** What the selector returns on an empty catalog. *)
Definition noExamples : Result :=
  mkResult VNull None (VNum 0%float) (VStr "No example queries available") None None.

Section Methods.
Context {host : Host}.

Definition selectBestQuery (userPrompt : string) : M Machine Result :=
  enter SelectBestQuery ;;;
  examples <- gets exampleQueries ;;
  if (List.length examples =? 0)%nat then
    ret noExamples
  else
    tryCatch
      (response <- callOllama (prompt examples userPrompt) ;;
       result <- liftC (JSONparse response) ;;
       selectedQuery <- liftC (getNamed result "selectedQuery") ;;
       selectedQueryIndex <- liftC (getNamed result "selectedQueryIndex") ;;
       confidence <- liftC (getNamed result "confidence") ;;
       reasoning <- liftC (getNamed result "reasoning") ;;
       ret (mkResult selectedQuery (Some selectedQueryIndex) confidence reasoning
                     (Some true) None))
      (fun error =>
         ret (mkResult VNull None (VNum 0%float)
                       (VStr ("Error selecting query: " ++ message error))
                       (Some false) (Some (message error)))).

End Methods.
End QuerySelector.

(* ===================================================================== *)
(** * [components/tableSelector.js] *)
(* ===================================================================== *)

Module TableSelector.

Record Result : Type := mkResult {
  selectedTables : jsval;
  selectedColumns : jsval;
  reasoning : jsval;
  confidence : option jsval;           (* absent on an empty catalog *)
  success : option bool;               (* [None]: the object has no such property *)
  error : option string
}.

(** The value of a string of decimal digits. *)
Fixpoint digitsValue (s : string) (acc : N) : option N :=
  match s with
  | EmptyString => Some acc
  | String c rest =>
      let n := N_of_ascii c in
      if ((48 <=? n) && (n <=? 57))%N
      then digitsValue rest (acc * 10 + (n - 48))%N
      else None
  end.

(** A property key that is an array index: the canonical decimal form of
    an integer below [2^32 - 1]. Such keys are enumerated first, in
    ascending order. *)
Definition arrayIndex (key : string) : option N :=
  match key with
  | EmptyString => None
  | String c rest =>
      if Ascii.eqb c "0"%char && negb (isEmpty rest) then None
      else
        match digitsValue key 0%N with
        | Some v => if (v <=? 4294967294)%N then Some v else None
        | None => None
        end
  end.

Definition hasKey {A} (key : string) (obj : list (string * A)) : bool :=
  existsb (fun kv => String.eqb (fst kv) key) obj.

Fixpoint replaceValue {A} (key : string) (v : A) (obj : list (string * A))
  : list (string * A) :=
  match obj with
  | [] => []
  | (k, old) :: rest =>
      if String.eqb k key then (k, v) :: rest
      else (k, old) :: replaceValue key v rest
  end.

(** A new index key goes before the first key that is not an index or is
    a larger one. *)
Fixpoint insertIndex {A} (i : N) (key : string) (v : A) (obj : list (string * A))
  : list (string * A) :=
  match obj with
  | [] => [(key, v)]
  | (k, old) :: rest =>
      match arrayIndex k with
      | Some j =>
          if (j <? i)%N then (k, old) :: insertIndex i key v rest
          else (key, v) :: (k, old) :: rest
      | None => (key, v) :: (k, old) :: rest
      end
  end.

(** [obj[key] = v] on a plain object. An assignment to [__proto__] reaches
    the accessor of [Object.prototype] and creates no own property. *)
Definition assign {A} (key : string) (v : A) (obj : list (string * A))
  : list (string * A) :=
  if String.eqb key "__proto__" then obj
  else if hasKey key obj then replaceValue key v obj
  else
    match arrayIndex key with
    | Some i => insertIndex i key v obj
    | None => (obj ++ [(key, v)])%list
    end.

(** [this.tableMetadata[tableName] = metadata]. *)
Definition addTableMetadata (tableName : string) (metadata : TableMetadata.t)
  : M Machine unit :=
  modify (fun m => setTableMetadata (assign tableName metadata (tableMetadata m)) m).

(** [x || d] for a text that may be missing. *)
Definition textOr (x : option string) (d : string) : string :=
  match x with
  | Some s => if isEmpty s then d else s
  | None => d
  end.

Definition columnText (col : Column.t) : string :=
  "  - " ++ Column.name col ++ " (" ++ Column.type col ++ "): "
  ++ textOr (Column.description col) "No description".

Definition tableText (entry : string * TableMetadata.t) : string :=
  let (tableName, metadata) := entry in
  lines [
    "";
    "Table: " ++ tableName;
    "Description: " ++ textOr (TableMetadata.description metadata) "No description available";
    "Columns:";
    String.concat nl (map columnText (TableMetadata.columns metadata));
    ""
  ].

Definition metadataText (catalog : Catalog) : string :=
  String.concat nl (map tableText catalog).

Definition prompt (catalog : Catalog) (userPrompt : string) : string :=
  lines [
    "";
    "You are a database expert. Given a user's request and database table metadata, identify the most relevant tables and columns needed to fulfill the request.";
    "";
    "User Request: " ++ dq ++ userPrompt ++ dq;
    "";
    "Available Tables and Columns:";
    metadataText catalog;
    "";
    "Please analyze the user request and:";
    "1. Identify which tables are needed";
    "2. Identify which specific columns from each table are required";
    "3. Explain your reasoning";
    "";
    "Respond in JSON format:";
    "{";
    "  " ++ dq ++ "selectedTables" ++ dq ++ ": [" ++ dq ++ "table1" ++ dq ++ ", " ++ dq ++ "table2" ++ dq ++ "],";
    "  " ++ dq ++ "selectedColumns" ++ dq ++ ": {";
    "    " ++ dq ++ "table1" ++ dq ++ ": [" ++ dq ++ "column1" ++ dq ++ ", " ++ dq ++ "column2" ++ dq ++ "],";
    "    " ++ dq ++ "table2" ++ dq ++ ": [" ++ dq ++ "column3" ++ dq ++ ", " ++ dq ++ "column4" ++ dq ++ "]";
    "  },";
    "  " ++ dq ++ "reasoning" ++ dq ++ ": " ++ dq ++ "<explanation_of_selections>" ++ dq ++ ",";
    "  " ++ dq ++ "confidence" ++ dq ++ ": <confidence_score_0_to_100>";
    "}";
    ""
  ].

(** What the selector returns on an empty catalog. *)
Definition noMetadata : Result :=
  mkResult (VArr []) (VObj []) (VStr "No table metadata available") None None None.

Section Methods.
Context {host : Host}.

Definition selectTablesAndColumns (userPrompt : string) : M Machine Result :=
  enter SelectTablesAndColumns ;;;
  catalog <- gets tableMetadata ;;
  if (List.length (map fst catalog) =? 0)%nat then
    ret noMetadata
  else
    tryCatch
      (response <- callOllama (prompt catalog userPrompt) ;;
       result <- liftC (JSONparse response) ;;
       selectedTables <- liftC (getNamed result "selectedTables") ;;
       selectedColumns <- liftC (getNamed result "selectedColumns") ;;
       reasoning <- liftC (getNamed result "reasoning") ;;
       confidence <- liftC (getNamed result "confidence") ;;
       ret (mkResult selectedTables selectedColumns reasoning (Some confidence)
                     (Some true) None))
      (fun error =>
         ret (mkResult (VArr []) (VObj [])
                       (VStr ("Error selecting tables and columns: " ++ message error))
                       (Some (VNum 0%float))
                       (Some false) (Some (message error)))).

End Methods.
End TableSelector.

(* ===================================================================== *)
(** * [components/queryGenerator.js] *)
(* ===================================================================== *)

Module QueryGenerator.

(** The inputs of a generation, echoed in its result. *)
Record Metadata : Type := mkMetadata {
  userPrompt : string;
  selectedQuery : jsval;
  selectedTables : jsval;
  selectedColumns : jsval
}.

Record Result : Type := mkResult {
  query : option string;               (* [None]: [null] *)
  success : bool;
  error : option string;
  metadata : Metadata
}.

(** [basicChecks] of [validateQuery]. *)
Record Checks : Type := mkChecks {
  hasSelect : bool;
  hasFrom : bool;
  properSyntax : bool;
  notEmpty : bool
}.

Record Validation : Type := mkValidation {
  isValid : bool;
  checks : Checks;
  suggestions : list string
}.

(** [Object.values(checks)]. *)
Definition values (c : Checks) : list bool :=
  [hasSelect c; hasFrom c; properSyntax c; notEmpty c].

Definition generateSuggestions (c : Checks) : list string :=
  let suggestions := [] in
  let suggestions :=
    if negb (hasSelect c)
    then (suggestions ++ ["Query should include a SELECT statement"])%list
    else suggestions in
  let suggestions :=
    if negb (hasFrom c)
    then (suggestions ++ ["Query should include a FROM clause"])%list
    else suggestions in
  let suggestions :=
    if negb (notEmpty c)
    then (suggestions ++ ["Query cannot be empty"])%list
    else suggestions in
  suggestions.

Definition validateQuery (query : string) : Validation :=
  let basicChecks :=
    mkChecks (regexTestI "SELECT" query)
             (regexTestI "FROM" query)
             (endsWith (trim query) ";" || negb (includes query ";"))
             (negb (isEmpty (trim query))) in
  let isValid := forallb (fun check => check) (values basicChecks) in
  mkValidation isValid basicChecks (generateSuggestions basicChecks).

Section Methods.
Context {host : Host}.

(** [validateQuery] applied to the [query] of a generation result:
    on [null] the reading of [query.trim] faults. *)
Definition validateQueryOf (query : option string) : completion Validation :=
  match query with
  | Some q => Return (validateQuery q)
  | None => Throw (TypeError (faultMessage (ReadOfNullish VNull (VStr "trim"))))
  end.

(** The callback of [selectedTables.map]. *)
Definition tableInfo (selectedColumns table : jsval) : completion string :=
  bindC (getComputed selectedColumns table) (fun found =>
  let columns := orElse found (VArr []) in
  bindC (ToString table) (fun tableName =>
  bindC (callJoin "columns.join" columns ", ") (fun columnNames =>
  Return ("Table: " ++ tableName ++ nl ++ "Columns: " ++ columnNames)))).

Definition tablesInfo (selectedTables selectedColumns : jsval) : completion string :=
  bindC (callMap "selectedTables.map" selectedTables (tableInfo selectedColumns))
        (fun infos => Return (String.concat (nl ++ nl) infos)).

(** [`${selectedQuery || 'No reference query provided'}`]. *)
Definition referencePattern (selectedQuery : jsval) : completion string :=
  if truthy selectedQuery then ToString selectedQuery
  else Return "No reference query provided".

Definition prompt (userPrompt : string) (selectedQuery : jsval) (tablesInfo : string)
  : completion string :=
  bindC (referencePattern selectedQuery) (fun pattern =>
  Return (lines [
    "";
    "You are an expert Redshift SQL developer. Generate a complete, optimized Redshift SQL query based on the provided information.";
    "";
    "User Request: " ++ dq ++ userPrompt ++ dq;
    "";
    "Reference Query Pattern: " ++ pattern;
    "";
    "Available Tables and Columns:";
    tablesInfo;
    "";
    "Requirements:";
    "1. Generate a complete, syntactically correct Redshift SQL query";
    "2. Use appropriate Redshift-specific functions and optimizations where applicable";
    "3. Include proper JOINs if multiple tables are needed";
    "4. Add appropriate WHERE clauses based on the user request";
    "5. Use proper column aliases for readability";
    "6. Ensure the query follows Redshift best practices";
    "";
    "Respond with ONLY the SQL query, no additional text or formatting.";
    ""
  ])).

Definition generateRedshiftQuery
  (userPrompt : string) (selectedQuery selectedTables selectedColumns : jsval)
  : M Machine Result :=
  enter GenerateRedshiftQuery ;;;
  tablesInfo <- liftC (tablesInfo selectedTables selectedColumns) ;;
  prompt <- liftC (prompt userPrompt selectedQuery tablesInfo) ;;
  let metadata := mkMetadata userPrompt selectedQuery selectedTables selectedColumns in
  tryCatch
    (response <- callOllama prompt ;;
     ret (mkResult (Some (trim response)) true None metadata))
    (fun error =>
       ret (mkResult None false (Some (message error)) metadata)).

End Methods.
End QueryGenerator.

(* ===================================================================== *)
(** * [aiAgent.js] *)
(* ===================================================================== *)

(** A local variable holding a mutable object, next to the store: the
    body of a [try] mutates it and the [catch] clause sees what was done. *)
Definition lift {L S A} (c : M S A) : M (L * S) A :=
  fun ls =>
    match c (snd ls) with
    | (r, s') => (r, (fst ls, s'))
    end.

Definition getLocal {L S} : M (L * S) L := gets fst.

Definition modifyLocal {L S} (f : L -> L) : M (L * S) unit :=
  modify (fun ls => (f (fst ls), snd ls)).

Definition withLocal {L S A} (l : L) (c : M (L * S) A) : M S A :=
  fun s =>
    match c (l, s) with
    | (r, ls) => (r, snd ls)
    end.

(** [if (c) throw e]. *)
Definition throwIf {S} (c : bool) (e : JsError) : M S unit :=
  if c then throw e else ret tt.

Module AIAgent.

(** [result.steps]: each step is recorded once it has returned. *)
Record Steps : Type := mkSteps {
  refinement : option InputRefinement.Result;
  querySelection : option QuerySelector.Result;
  tableSelection : option TableSelector.Result;
  queryGeneration : option QueryGenerator.Result;
  validation : option QueryGenerator.Validation
}.

Record PipelineResult : Type := mkPipelineResult {
  userInput : string;
  steps : Steps;
  finalQuery : option string;          (* [None]: [null] *)
  success : bool;
  processingTime : Z;
  error : option string                (* set by the [catch] clause only *)
}.

Definition noSteps : Steps := mkSteps None None None None None.

Definition setSteps (f : Steps -> Steps) (r : PipelineResult) : PipelineResult :=
  mkPipelineResult (userInput r) (f (steps r)) (finalQuery r) (success r)
                   (processingTime r) (error r).

Definition setRefinement (x : InputRefinement.Result) : PipelineResult -> PipelineResult :=
  setSteps (fun s => mkSteps (Some x) (querySelection s) (tableSelection s)
                             (queryGeneration s) (validation s)).

Definition setQuerySelection (x : QuerySelector.Result) : PipelineResult -> PipelineResult :=
  setSteps (fun s => mkSteps (refinement s) (Some x) (tableSelection s)
                             (queryGeneration s) (validation s)).

Definition setTableSelection (x : TableSelector.Result) : PipelineResult -> PipelineResult :=
  setSteps (fun s => mkSteps (refinement s) (querySelection s) (Some x)
                             (queryGeneration s) (validation s)).

Definition setQueryGeneration (x : QueryGenerator.Result) : PipelineResult -> PipelineResult :=
  setSteps (fun s => mkSteps (refinement s) (querySelection s) (tableSelection s)
                             (Some x) (validation s)).

Definition setValidation (x : QueryGenerator.Validation) : PipelineResult -> PipelineResult :=
  setSteps (fun s => mkSteps (refinement s) (querySelection s) (tableSelection s)
                             (queryGeneration s) (Some x)).

Definition setFinalQuery (q : option string) (r : PipelineResult) : PipelineResult :=
  mkPipelineResult (userInput r) (steps r) q (success r) (processingTime r) (error r).

Definition setSuccess (b : bool) (r : PipelineResult) : PipelineResult :=
  mkPipelineResult (userInput r) (steps r) (finalQuery r) b (processingTime r) (error r).

Definition setProcessingTime (t : Z) (r : PipelineResult) : PipelineResult :=
  mkPipelineResult (userInput r) (steps r) (finalQuery r) (success r) t (error r).

Definition setError (e : string) (r : PipelineResult) : PipelineResult :=
  mkPipelineResult (userInput r) (steps r) (finalQuery r) (success r)
                   (processingTime r) (Some e).

(** [!x.success] on a step result whose [success] may be missing. *)
Definition falsy (x : option bool) : bool :=
  match x with
  | Some b => negb b
  | None => true
  end.

(** The constructor's argument: [{ exampleQueries, tableMetadata }], each
    optional. *)
Record Config : Type := mkConfig {
  configExampleQueries : option (list ExampleQuery.t);
  configTableMetadata : option Catalog
}.

(** [new AIAgent(config)], with a fresh history. The agent also keeps
    [config] itself, which it never reads again. *)
Definition new (config : Config) : Machine :=
  mkMachine
    (match configExampleQueries config with Some qs => qs | None => [] end)
    (match configTableMetadata config with Some c => c | None => [] end)
    [] 0 [].

Definition addExampleQuery (query description : string) : M Machine unit :=
  QuerySelector.addExampleQuery query description.

Definition addTableMetadata (tableName : string) (metadata : TableMetadata.t)
  : M Machine unit :=
  TableSelector.addTableMetadata tableName metadata.

Section Methods.
Context {host : Host}.

(** [Date.now()]. *)
Definition now : M Machine Z :=
  fun m => (Return (Date_now (clockReads m)), logClockRead m).

(** The body of the [try] of [processQuery]; [result] is the local. A step
    result is read back from [result.steps] right after it is stored, which
    gives the value just bound. *)
Definition tryBlock (userInput : string) (startTime : Z)
  : M (PipelineResult * Machine) PipelineResult :=
  refinement <- lift (InputRefinement.refineUserInput userInput) ;;
  modifyLocal (setRefinement refinement) ;;;
  throwIf (negb (InputRefinement.success refinement))
    (Error ("Input refinement failed: "
            ++ showOptional (InputRefinement.error refinement))) ;;;
  querySelection <-
    lift (QuerySelector.selectBestQuery (InputRefinement.refined refinement)) ;;
  modifyLocal (setQuerySelection querySelection) ;;;
  tableSelection <-
    lift (TableSelector.selectTablesAndColumns (InputRefinement.refined refinement)) ;;
  modifyLocal (setTableSelection tableSelection) ;;;
  throwIf (falsy (TableSelector.success tableSelection))
    (Error ("Table selection failed: "
            ++ showOptional (TableSelector.error tableSelection))) ;;;
  queryGeneration <-
    lift (QueryGenerator.generateRedshiftQuery
            (InputRefinement.refined refinement)
            (QuerySelector.selectedQuery querySelection)
            (TableSelector.selectedTables tableSelection)
            (TableSelector.selectedColumns tableSelection)) ;;
  modifyLocal (setQueryGeneration queryGeneration) ;;;
  throwIf (negb (QueryGenerator.success queryGeneration))
    (Error ("Query generation failed: "
            ++ showOptional (QueryGenerator.error queryGeneration))) ;;;
  validation <-
    lift (enter ValidateQuery ;;;
          liftC (QueryGenerator.validateQueryOf (QueryGenerator.query queryGeneration))) ;;
  modifyLocal (setValidation validation) ;;;
  modifyLocal (setFinalQuery (QueryGenerator.query queryGeneration)) ;;;
  modifyLocal (setSuccess true) ;;;
  endTime <- lift now ;;
  modifyLocal (setProcessingTime (endTime - startTime)) ;;;
  getLocal.

(** The [catch] clause of [processQuery]. *)
Definition catchBlock (startTime : Z) (error : JsError)
  : M (PipelineResult * Machine) PipelineResult :=
  modifyLocal (setSuccess false) ;;;
  modifyLocal (setError (message error)) ;;;
  endTime <- lift now ;;
  modifyLocal (setProcessingTime (endTime - startTime)) ;;;
  getLocal.

Definition processQuery (userInput : string) : M Machine PipelineResult :=
  startTime <- now ;;
  withLocal (mkPipelineResult userInput noSteps None false 0 None)
    (tryCatch (tryBlock userInput startTime) (catchBlock startTime)).

End Methods.
End AIAgent.

(* ===================================================================== *)
(** * A scripted host and a small agent, for concrete runs *)
(* ===================================================================== *)

Module Sample.

(** The messages of V8, the engine of Node.js. *)
Definition v8Message (f : Fault) : string :=
  match f with
  | ReadOfNullish base key =>
      "Cannot read properties of "
      ++ match base with VNull => "null" | _ => "undefined" end
      ++ " (reading '" ++ match key with VStr k => k | _ => "" end ++ "')"
  | NotAFunction callee => callee ++ " is not a function"
  | NotPrimitive => "Cannot convert object to primitive value"
  end.

(** A reply of the model that is a JSON object, as the query selector
    asks for it. *)
Definition selectionReply : string :=
  "{" ++ dq ++ "selectedQueryIndex" ++ dq ++ ": 1, "
  ++ dq ++ "selectedQuery" ++ dq ++ ": " ++ dq ++ "SELECT 1;" ++ dq ++ ", "
  ++ dq ++ "confidence" ++ dq ++ ": 90, "
  ++ dq ++ "reasoning" ++ dq ++ ": " ++ dq ++ "closest" ++ dq ++ "}".

Definition selectionProps : list (string * jsval) :=
  [("selectedQueryIndex", VNum 1%float);
   ("selectedQuery", VStr "SELECT 1;");
   ("confidence", VNum 90%float);
   ("reasoning", VStr "closest")].

(** A reply that is a JSON object, as the table selector asks for it. *)
Definition tablesReply : string :=
  "{" ++ dq ++ "selectedTables" ++ dq ++ ": [" ++ dq ++ "orders" ++ dq ++ "], "
  ++ dq ++ "selectedColumns" ++ dq ++ ": {" ++ dq ++ "orders" ++ dq ++ ": ["
  ++ dq ++ "order_id" ++ dq ++ ", " ++ dq ++ "order_amount" ++ dq ++ "]}, "
  ++ dq ++ "reasoning" ++ dq ++ ": " ++ dq ++ "revenue is in orders" ++ dq ++ ", "
  ++ dq ++ "confidence" ++ dq ++ ": 80}".

Definition tablesProps : list (string * jsval) :=
  [("selectedTables", VArr [VStr "orders"]);
   ("selectedColumns", VObj [("orders", VArr [VStr "order_id"; VStr "order_amount"])]);
   ("reasoning", VStr "revenue is in orders");
   ("confidence", VNum 80%float)].

(** A reply that is no JSON text, and what V8 says of it. *)
Definition proseReply : string := "I would pick the orders table.".

Definition proseFault : string :=
  "Unexpected token 'I', " ++ dq ++ proseReply ++ dq ++ " is not valid JSON".

(** [JSON.parse] on the texts the runs below meet; any other text is
    taken as malformed. *)
Definition parse (text : string) : jsval + string :=
  if String.eqb text selectionReply then inl (VObj selectionProps)
  else if String.eqb text tablesReply then inl (VObj tablesProps)
  else if String.eqb text "{}" then inl (VObj [])
  else inr ("Unexpected token '" ++ substring 0 1 text ++ "', " ++ dq ++ text ++ dq
            ++ " is not valid JSON").

(** A host that answers the [n]-th request with the [n]-th entry of
    [script], and fails to connect once the script is over. Its clock
    advances by 250 ms per reading; no name is found on a prototype; no
    run below prints a number. *)
Definition scripted (script : list (string + string)) : Host := {|
  ollama_chat := fun n _ => nth n script (inr "fetch failed");
  JSON_parse := parse;
  Date_now := fun n => (1000 + 250 * Z.of_nat n)%Z;
  Number_toString := fun _ => "0";
  faultMessage := v8Message;
  inheritedGet := fun _ _ => Own VUndefined;
  nativeJoin := fun n => Throw (TypeError (v8Message (NotAFunction n)))
|}.

Definition orders : TableMetadata.t :=
  TableMetadata.make (Some "Order transactions table")
    [Column.make "order_id" "INTEGER" (Some "Unique order identifier");
     Column.make "order_amount" "DECIMAL(10,2)" None].

Definition monthlyRevenue : ExampleQuery.t :=
  ExampleQuery.make
    "SELECT DATE_TRUNC('month', order_date) as month, SUM(order_amount) as monthly_revenue FROM orders GROUP BY month ORDER BY month;"
    "Get monthly revenue totals".

(** An agent with one example query and one table. *)
Definition agent : Machine :=
  AIAgent.new (AIAgent.mkConfig (Some [monthlyRevenue]) (Some [("orders", orders)])).

(** An agent with an example query and no table metadata. *)
Definition agentWithoutTables : Machine :=
  AIAgent.new (AIAgent.mkConfig (Some [monthlyRevenue]) None).

End Sample.

(* ===================================================================== *)
(** * The vocabulary of the properties *)
(* ===================================================================== *)

(** The two catalogs of a machine. *)
Definition catalogs (m : Machine) : list ExampleQuery.t * Catalog :=
  (exampleQueries m, tableMetadata m).

(** [Preserves view c]: running [c] leaves [view] of the store unchanged,
    whether it returns or throws. *)
Definition Preserves {S V A} (view : S -> V) (c : M S A) : Prop :=
  forall s, view (snd (c s)) = view s.

(** [Returns c]: [c] never throws to its caller. *)
Definition Returns {S A} (c : M S A) : Prop :=
  forall s, exists a, fst (c s) = Return a.

(** The value read at [name] from an object with own properties [props]. *)
Definition propertyOf (props : list (string * jsval)) (name : string) : jsval :=
  match ownProp props name with
  | Some v => v
  | None => VUndefined
  end.

(** The messages of [generateSuggestions]. *)
Definition selectMissing : string := "Query should include a SELECT statement".
Definition fromMissing : string := "Query should include a FROM clause".
Definition emptyQuery : string := "Query cannot be empty".

(** The checks of [validateQuery] in the words of its description. *)
Module ValidationSpec.

(** [s] contains the letters of [p], in any case. *)
Definition ContainsIgnoringCase (p s : string) : Prop :=
  exists pre mid post, s = pre ++ mid ++ post /\ canon mid = canon p.

(** [s] contains [p]. *)
Definition Contains (p s : string) : Prop :=
  exists pre post, s = pre ++ p ++ post.

(** [s] ends with [p]. *)
Definition EndsWith (p s : string) : Prop :=
  exists pre, s = pre ++ p.

End ValidationSpec.

(** The required steps of a run (input refinement, table selection, query
    generation) have all been recorded with [success: true]. *)
Definition requiredStepsSucceeded (s : AIAgent.Steps) : Prop :=
  (exists r, AIAgent.refinement s = Some r /\ InputRefinement.success r = true)
  /\ (exists t, AIAgent.tableSelection s = Some t /\ TableSelector.success t = Some true)
  /\ (exists g, AIAgent.queryGeneration s = Some g /\ QueryGenerator.success g = true).

(** The result [processQuery] starts from. *)
Definition initialResult (userInput : string) : AIAgent.PipelineResult :=
  AIAgent.mkPipelineResult userInput AIAgent.noSteps None false 0 None.

(** What the [catch] clause makes of the result as the [try] left it. *)
Definition aborted (startTime endTime : Z) (e : JsError) (r : AIAgent.PipelineResult)
  : AIAgent.PipelineResult :=
  AIAgent.setProcessingTime (endTime - startTime)
    (AIAgent.setError (message e) (AIAgent.setSuccess false r)).

(** The object [{ table: [column, ...], ... }] built from [columns]. *)
Definition columnsObject (columns : list (string * list string)) : jsval :=
  VObj (map (fun kv => (fst kv, VArr (map VStr (snd kv)))) columns).

(** The machine after each of the first three steps of a run. *)
Definition afterRefinement (userInput : string) (m : Machine) : Machine :=
  logRequest (InputRefinement.prompt userInput) (logEnter RefineUserInput m).

Definition afterQuerySelection (userPrompt : string) (m : Machine) : Machine :=
  match exampleQueries m with
  | [] => logEnter SelectBestQuery m
  | _ :: _ =>
      logRequest (QuerySelector.prompt (exampleQueries m) userPrompt)
                 (logEnter SelectBestQuery m)
  end.

Definition afterTableSelection (userPrompt : string) (m : Machine) : Machine :=
  match tableMetadata m with
  | [] => logEnter SelectTablesAndColumns m
  | _ :: _ =>
      logRequest (TableSelector.prompt (tableMetadata m) userPrompt)
                 (logEnter SelectTablesAndColumns m)
  end.

(** The position, among the requests of the machine, of the request the
    table selector sends in a run started on [m]: after the refiner's, and
    after the query selector's when the example catalog is not empty. *)
Definition tableRequestIndex (m : Machine) : nat :=
  List.length (requests m)
  + match exampleQueries m with [] => 1 | _ :: _ => 2 end.

(** What the two selectors make of a reply of the model once it has been
    received: the body of their [try] followed by its [catch]. *)
Section Replies.
Context {host : Host}.

Definition querySelectionOf (response : string) : QuerySelector.Result :=
  match
    bindC (JSONparse response) (fun result =>
    bindC (getNamed result "selectedQuery") (fun selectedQuery =>
    bindC (getNamed result "selectedQueryIndex") (fun selectedQueryIndex =>
    bindC (getNamed result "confidence") (fun confidence =>
    bindC (getNamed result "reasoning") (fun reasoning =>
    Return (QuerySelector.mkResult selectedQuery (Some selectedQueryIndex)
              confidence reasoning (Some true) None))))))
  with
  | Return r => r
  | Throw error =>
      QuerySelector.mkResult VNull None (VNum 0%float)
        (VStr ("Error selecting query: " ++ message error))
        (Some false) (Some (message error))
  end.

Definition tableSelectionOf (response : string) : TableSelector.Result :=
  match
    bindC (JSONparse response) (fun result =>
    bindC (getNamed result "selectedTables") (fun selectedTables =>
    bindC (getNamed result "selectedColumns") (fun selectedColumns =>
    bindC (getNamed result "reasoning") (fun reasoning =>
    bindC (getNamed result "confidence") (fun confidence =>
    Return (TableSelector.mkResult selectedTables selectedColumns reasoning
              (Some confidence) (Some true) None))))))
  with
  | Return r => r
  | Throw error =>
      TableSelector.mkResult (VArr []) (VObj [])
        (VStr ("Error selecting tables and columns: " ++ message error))
        (Some (VNum 0%float)) (Some false) (Some (message error))
  end.

End Replies.

(* ===================================================================== *)
(** * [aiAgent.js]: the summary of a result *)
(* ===================================================================== *)

Module ProcessingSummary.

Record Refinement : Type := mkRefinement { original : string; refined : string }.

Record QuerySelection : Type := mkQuerySelection { confidence : jsval; reasoning : jsval }.

(** [confidence] is read from a step result that may lack it: it is then
    [undefined]. *)
Record TableSelection : Type := mkTableSelection {
  selectedTables : jsval;
  tableConfidence : jsval
}.

Record Validation : Type := mkValidation { isValid : bool; suggestions : list string }.

(** [summary.steps]: an entry for each step the result has recorded,
    query generation apart. *)
Record Steps : Type := mkSteps {
  refinement : option Refinement;
  querySelection : option QuerySelection;
  tableSelection : option TableSelection;
  validation : option Validation
}.

Record t : Type := make {
  success : bool;
  processingTime : Z;
  steps : Steps
}.


End ProcessingSummary.

(* ===================================================================== *)
(** * The outcomes of a run *)
(* ===================================================================== *)

(** The order in which a run enters the operations. *)
Definition pipelineOrder : list Operation :=
  [RefineUserInput; SelectBestQuery; SelectTablesAndColumns;
   GenerateRedshiftQuery; ValidateQuery].

(** The value of the own property [key] of an object used as a map. *)
Fixpoint lookup {A} (key : string) (obj : list (string * A)) : option A :=
  match obj with
  | [] => None
  | (k, v) :: rest => if String.eqb k key then Some v else lookup key rest
  end.

Section Outcomes.
Context {host : Host}.

(** The prompt the query generator builds before its [try]: the text of
    the selected tables, then the template. *)
Definition generatorPrompt (userPrompt : string)
           (selectedQuery selectedTables selectedColumns : jsval) : completion string :=
  bindC (QueryGenerator.tablesInfo selectedTables selectedColumns) (fun info =>
  QueryGenerator.prompt userPrompt selectedQuery info).

(** What the two selectors return on a machine, as a value. *)
Definition querySelectionAt (userPrompt : string) (m : Machine) : QuerySelector.Result :=
  match exampleQueries m with
  | [] => QuerySelector.noExamples
  | _ :: _ =>
      match ollama_chat (List.length (requests m))
              (QuerySelector.prompt (exampleQueries m) userPrompt) with
      | inl response => querySelectionOf response
      | inr msg =>
          QuerySelector.mkResult VNull None (VNum 0%float)
            (VStr ("Error selecting query: Ollama API call failed: " ++ msg))
            (Some false) (Some ("Ollama API call failed: " ++ msg))
      end
  end.

Definition tableSelectionAt (userPrompt : string) (m : Machine) : TableSelector.Result :=
  match tableMetadata m with
  | [] => TableSelector.noMetadata
  | _ :: _ =>
      match ollama_chat (List.length (requests m))
              (TableSelector.prompt (tableMetadata m) userPrompt) with
      | inl response => tableSelectionOf response
      | inr msg =>
          TableSelector.mkResult (VArr []) (VObj [])
            (VStr ("Error selecting tables and columns: Ollama API call failed: " ++ msg))
            (Some (VNum 0%float)) (Some false)
            (Some ("Ollama API call failed: " ++ msg))
      end
  end.

(** The five ways a run of [processQuery] on [userInput] from the machine
    [m] can end, each with the result returned and the machine left. *)
Section OneRun.
Variable userInput : string.
Variable m : Machine.

Let m0 : Machine := logClockRead m.
Let m1 : Machine := afterRefinement userInput m0.
Let elapsed : Z := (Date_now (S (clockReads m)) - Date_now (clockReads m))%Z.

Inductive Outcome : AIAgent.PipelineResult -> Machine -> Prop :=
| RefinementFailed (msg : string) :
    ollama_chat (List.length (requests m)) (InputRefinement.prompt userInput) = inr msg ->
    Outcome
      (AIAgent.mkPipelineResult userInput
         (AIAgent.mkSteps
            (Some (InputRefinement.mkResult userInput userInput false
                     (Some ("Ollama API call failed: " ++ msg))))
            None None None None)
         None false elapsed
         (Some ("Input refinement failed: " ++ "Ollama API call failed: " ++ msg)))
      (logClockRead m1)
| TableSelectionFailed (refined : string) :
    ollama_chat (List.length (requests m)) (InputRefinement.prompt userInput) = inl refined ->
    let m2 := afterQuerySelection refined m1 in
    let qs := querySelectionAt refined m1 in
    let ts := tableSelectionAt refined m2 in
    AIAgent.falsy (TableSelector.success ts) = true ->
    Outcome
      (AIAgent.mkPipelineResult userInput
         (AIAgent.mkSteps
            (Some (InputRefinement.mkResult userInput refined true None))
            (Some qs) (Some ts) None None)
         None false elapsed
         (Some ("Table selection failed: " ++ showOptional (TableSelector.error ts))))
      (logClockRead (afterTableSelection refined m2))
| GenerationThrew (refined : string) (e : JsError) :
    ollama_chat (List.length (requests m)) (InputRefinement.prompt userInput) = inl refined ->
    let m2 := afterQuerySelection refined m1 in
    let qs := querySelectionAt refined m1 in
    let ts := tableSelectionAt refined m2 in
    TableSelector.success ts = Some true ->
    generatorPrompt refined (QuerySelector.selectedQuery qs)
      (TableSelector.selectedTables ts) (TableSelector.selectedColumns ts) = Throw e ->
    Outcome
      (AIAgent.mkPipelineResult userInput
         (AIAgent.mkSteps
            (Some (InputRefinement.mkResult userInput refined true None))
            (Some qs) (Some ts) None None)
         None false elapsed
         (Some (message e)))
      (logClockRead (logEnter GenerateRedshiftQuery (afterTableSelection refined m2)))
| GenerationFailed (refined prompt msg : string) :
    ollama_chat (List.length (requests m)) (InputRefinement.prompt userInput) = inl refined ->
    let m2 := afterQuerySelection refined m1 in
    let m3 := afterTableSelection refined m2 in
    let qs := querySelectionAt refined m1 in
    let ts := tableSelectionAt refined m2 in
    TableSelector.success ts = Some true ->
    generatorPrompt refined (QuerySelector.selectedQuery qs)
      (TableSelector.selectedTables ts) (TableSelector.selectedColumns ts) = Return prompt ->
    ollama_chat (List.length (requests m3)) prompt = inr msg ->
    Outcome
      (AIAgent.mkPipelineResult userInput
         (AIAgent.mkSteps
            (Some (InputRefinement.mkResult userInput refined true None))
            (Some qs) (Some ts)
            (Some (QueryGenerator.mkResult None false
                     (Some ("Ollama API call failed: " ++ msg))
                     (QueryGenerator.mkMetadata refined (QuerySelector.selectedQuery qs)
                        (TableSelector.selectedTables ts)
                        (TableSelector.selectedColumns ts))))
            None)
         None false elapsed
         (Some ("Query generation failed: " ++ "Ollama API call failed: " ++ msg)))
      (logClockRead (logRequest prompt (logEnter GenerateRedshiftQuery m3)))
| Succeeded (refined prompt response : string) :
    ollama_chat (List.length (requests m)) (InputRefinement.prompt userInput) = inl refined ->
    let m2 := afterQuerySelection refined m1 in
    let m3 := afterTableSelection refined m2 in
    let qs := querySelectionAt refined m1 in
    let ts := tableSelectionAt refined m2 in
    TableSelector.success ts = Some true ->
    generatorPrompt refined (QuerySelector.selectedQuery qs)
      (TableSelector.selectedTables ts) (TableSelector.selectedColumns ts) = Return prompt ->
    ollama_chat (List.length (requests m3)) prompt = inl response ->
    Outcome
      (AIAgent.mkPipelineResult userInput
         (AIAgent.mkSteps
            (Some (InputRefinement.mkResult userInput refined true None))
            (Some qs) (Some ts)
            (Some (QueryGenerator.mkResult (Some (trim response)) true None
                     (QueryGenerator.mkMetadata refined (QuerySelector.selectedQuery qs)
                        (TableSelector.selectedTables ts)
                        (TableSelector.selectedColumns ts))))
            (Some (QueryGenerator.validateQuery (trim response))))
         (Some (trim response)) true elapsed None)
      (logClockRead
         (logEnter ValidateQuery
            (logRequest prompt (logEnter GenerateRedshiftQuery m3)))).

End OneRun.
End Outcomes.

(* ===================================================================== *)
(** * Further vocabulary: prompts, white space, replies *)
(* ===================================================================== *)

(** The lines that present an example to the model. *)
Definition exampleLines (position : nat) (example : ExampleQuery.t) : string :=
  "Example " ++ ofNat position ++ ":" ++ nl
  ++ "Description: " ++ ExampleQuery.description example ++ nl
  ++ "SQL Query: " ++ ExampleQuery.query example ++ nl.

(** The lines that present a table, and one of its columns, to the model. *)
Definition tableLines (tableName : string) (metadata : TableMetadata.t) : string :=
  "Table: " ++ tableName ++ nl
  ++ "Description: "
  ++ TableSelector.textOr (TableMetadata.description metadata) "No description available"
  ++ nl ++ "Columns:" ++ nl.

Definition columnLine (col : Column.t) : string :=
  "  - " ++ Column.name col ++ " (" ++ Column.type col ++ "): "
  ++ TableSelector.textOr (Column.description col) "No description".

(** The lines of one selected table. *)
Definition selectedTableLines (columns : list (string * list string)) (table : string)
  : string :=
  "Table: " ++ table ++ nl ++ "Columns: "
  ++ String.concat ", " (match lookup table columns with
                         | Some names => names
                         | None => []
                         end).

(** [true] for the values [JSON.parse] returns that are neither an object
    nor [null]: booleans, numbers, strings and arrays. *)
Definition isScalarOrArray (v : jsval) : bool :=
  match v with
  | VBool _ | VNum _ | VStr _ | VArr _ => true
  | VUndefined | VNull | VObj _ => false
  end.

(** A byte that can be part of white space: an ASCII blank, or a byte of
    a multi-byte sequence. No letter, digit or punctuation mark is one. *)
Definition blankByte (a : ascii) : bool :=
  ws1 (nat_of_ascii a) || (128 <=? nat_of_ascii a)%nat.

Fixpoint allBlank (s : string) : bool :=
  match s with
  | EmptyString => true
  | String a s' => blankByte a && allBlank s'
  end.

(** The text starts with white space (resp. ends with it, read backwards). *)
Definition leadingWs (s : string) : bool :=
  match s with
  | EmptyString => false
  | String a s1 =>
      ws1 (nat_of_ascii a)
      || match s1 with
         | EmptyString => false
         | String b s2 =>
             ws2 (nat_of_ascii a) (nat_of_ascii b)
             || match s2 with
                | EmptyString => false
                | String c _ => ws3 (nat_of_ascii a) (nat_of_ascii b) (nat_of_ascii c)
                end
         end
  end.

Definition leadingWsRev (s : string) : bool :=
  match s with
  | EmptyString => false
  | String a s1 =>
      ws1 (nat_of_ascii a)
      || match s1 with
         | EmptyString => false
         | String b s2 =>
             ws2 (nat_of_ascii b) (nat_of_ascii a)
             || match s2 with
                | EmptyString => false
                | String c _ => ws3 (nat_of_ascii c) (nat_of_ascii b) (nat_of_ascii a)
                end
         end
  end.

(** Capital letters only. *)
Fixpoint capitals (p : string) : bool :=
  match p with
  | EmptyString => true
  | String b p' =>
      (65 <=? nat_of_ascii b)%nat && (nat_of_ascii b <=? 90)%nat && capitals p'
  end.

(** No blank byte. *)
Fixpoint noBlank (p : string) : bool :=
  match p with
  | EmptyString => true
  | String b p' => negb (blankByte b) && noBlank p'
  end.

(** A scripted host with a [JSON.parse] of its own. *)
Definition scriptedParsing (parse : string -> jsval + string)
           (script : list (string + string)) : Host := {|
  ollama_chat := fun n _ => nth n script (inr "fetch failed");
  JSON_parse := parse;
  Date_now := fun n => (1000 + 250 * Z.of_nat n)%Z;
  Number_toString := fun _ => "0";
  faultMessage := Sample.v8Message;
  inheritedGet := fun _ _ => Own VUndefined;
  nativeJoin := fun n => Throw (TypeError (Sample.v8Message (NotAFunction n)))
|}.

(** [JSON.parse] on the texts [42] and [null], and as in the sample
    otherwise. *)
Definition parseScalars (text : string) : jsval + string :=
  if String.eqb text "42" then inl (VNum 42%float)
  else if String.eqb text "null" then inl VNull
  else Sample.parse text.

(* ===================================================================== *)
(** * Strings: the tests decide what they say *)
(* ===================================================================== *)

Section StringFacts.
Import ValidationSpec.

Lemma append_nil_r (s : string) : s ++ "" = s.
Proof. induction s; simpl; congruence. Qed.

Lemma append_assoc (a b c : string) : (a ++ b) ++ c = a ++ b ++ c.
Proof. induction a; simpl; congruence. Qed.

Lemma rev_onto_spec (s acc : string) : rev_onto s acc = rev s ++ acc.
Proof.
  unfold rev. revert acc.
  induction s as [|c s IH]; intro acc; simpl.
  - reflexivity.
  - rewrite IH, (IH (String c "")), append_assoc. reflexivity.
Qed.

Lemma rev_cons (c : ascii) (s : string) : rev (String c s) = rev s ++ String c "".
Proof. unfold rev at 1. simpl. apply rev_onto_spec. Qed.

Lemma rev_append (a b : string) : rev (a ++ b) = rev b ++ rev a.
Proof.
  induction a as [|c a IH]; simpl.
  - now rewrite append_nil_r.
  - rewrite !rev_cons, IH, append_assoc. reflexivity.
Qed.

Lemma rev_involutive (s : string) : rev (rev s) = s.
Proof.
  induction s as [|c s IH]; [reflexivity|].
  rewrite rev_cons, rev_append, IH. reflexivity.
Qed.

(** [startsWith] decides "is a prefix of". *)
Lemma startsWith_iff (s p : string) :
  startsWith s p = true <-> exists post, s = p ++ post.
Proof.
  revert s. induction p as [|b p IH]; intros s; simpl.
  - split; [intros _; now exists s | intros _; destruct s; reflexivity].
  - destruct s as [|a s]; simpl.
    + split; [discriminate | intros [post H]; discriminate].
    + rewrite andb_true_iff, IH. split.
      * intros [Hab [post ->]]. apply Ascii.eqb_eq in Hab. subst. now exists post.
      * intros [post H]. injection H as -> ->. split; [apply Ascii.eqb_refl | now exists post].
Qed.

(** [includes] decides "contains". *)
Lemma includes_iff (s p : string) : includes s p = true <-> Contains p s.
Proof.
  unfold Contains. induction s as [|a s IH].
  - cbn [includes]. rewrite orb_false_r, startsWith_iff. split.
    + intros [post H]. exists "", post. exact H.
    + intros [pre [post H]]. destruct pre; [now exists post | discriminate].
  - cbn [includes]. rewrite orb_true_iff, IH, startsWith_iff. split.
    + intros [[post H] | [pre [post H]]].
      * exists "", post. exact H.
      * exists (String a pre), post. simpl. now rewrite H.
    + intros [pre [post H]]. destruct pre as [|c pre].
      * left. now exists post.
      * right. simpl in H. injection H as _ H. now exists pre, post.
Qed.

(** [endsWith] decides "ends with". *)
Lemma endsWith_iff (s p : string) : endsWith s p = true <-> EndsWith p s.
Proof.
  unfold endsWith, EndsWith. rewrite startsWith_iff. split.
  - intros [post H]. exists (rev post).
    rewrite <- (rev_involutive s), H, rev_append, rev_involutive. reflexivity.
  - intros [pre ->]. exists (rev pre). apply rev_append.
Qed.

(** [matchesAt] decides "starts with the letters of [p], in any case". *)
Lemma matchesAt_iff (s p : string) :
  matchesAt s p = true <-> exists mid post, s = mid ++ post /\ canon mid = canon p.
Proof.
  revert s. induction p as [|b p IH]; intros s; simpl.
  - split; [intros _; now exists "", s | intros _; destruct s; reflexivity].
  - destruct s as [|a s]; simpl.
    + split; [discriminate|].
      intros [mid [post [H1 H2]]]. destruct mid; discriminate.
    + rewrite andb_true_iff, IH. split.
      * intros [Hab [mid [post [-> Hc]]]]. apply Ascii.eqb_eq in Hab.
        exists (String a mid), post. simpl. now rewrite Hab, Hc.
      * intros [mid [post [H1 H2]]]. destruct mid as [|c mid]; [discriminate|].
        simpl in H1, H2. injection H1 as -> ->. injection H2 as Hc Hm.
        split; [rewrite Hc; apply Ascii.eqb_refl | now exists mid, post].
Qed.

(** [regexTestI] decides "contains the letters of [p], in any case". *)
Lemma regexTestI_iff (p s : string) :
  regexTestI p s = true <-> ContainsIgnoringCase p s.
Proof.
  unfold ContainsIgnoringCase. induction s as [|a s IH].
  - cbn [regexTestI]. rewrite orb_false_r, matchesAt_iff. split.
    + intros [mid [post [H1 H2]]]. now exists "", mid, post.
    + intros [pre [mid [post [H1 H2]]]].
      destruct pre; [now exists mid, post | discriminate].
  - cbn [regexTestI]. rewrite orb_true_iff, IH, matchesAt_iff. split.
    + intros [[mid [post [H1 H2]]] | [pre [mid [post [H1 H2]]]]].
      * now exists "", mid, post.
      * exists (String a pre), mid, post. simpl. now rewrite H1.
    + intros [pre [mid [post [H1 H2]]]]. destruct pre as [|c pre].
      * left. now exists mid, post.
      * right. simpl in H1. injection H1 as _ H1. now exists pre, mid, post.
Qed.

Lemma isEmpty_false_iff (s : string) : negb (isEmpty s) = true <-> s <> "".
Proof. destruct s; simpl; split; congruence. Qed.

End StringFacts.

(* ===================================================================== *)
(** * Running the monad *)
(* ===================================================================== *)

Section Running.
Context {S A B : Type}.

Lemma bind_return (c : M S A) (k : A -> M S B) s a s' :
  c s = (Return a, s') -> bind c k s = k a s'.
Proof. unfold bind. now intros ->. Qed.

Lemma bind_throw (c : M S A) (k : A -> M S B) s e s' :
  c s = (Throw e, s') -> bind c k s = (Throw e, s').
Proof. unfold bind. now intros ->. Qed.

Lemma lift_run {L} (c : M S A) (l : L) s r s' :
  c s = (r, s') -> lift c (l, s) = (r, (l, s')).
Proof. unfold lift. simpl. now intros ->. Qed.

End Running.

Lemma mapC_sequenceC {A B} (f : A -> completion B) (l : list A) :
  mapC f l = sequenceC (map f l).
Proof. induction l as [|x l IH]; simpl; [reflexivity | now rewrite IH]. Qed.

(** An array prints as [Array.prototype.join] with a comma makes it. *)
Lemma ToString_array {host : Host} (elems : list jsval) :
  ToString (VArr elems) = Array_join elems ",".
Proof. unfold Array_join. rewrite mapC_sequenceC. reflexivity. Qed.

(* ===================================================================== *)
(** * Preservation of a view of the store *)
(* ===================================================================== *)

Create HintDb frame discriminated.

Section Preservation.
Context {S V : Type} (view : S -> V).

Lemma preserves_ret {A} (a : A) : Preserves view (ret a).
Proof. intro s. reflexivity. Qed.

Lemma preserves_throw {A} (e : JsError) : Preserves view (@throw S A e).
Proof. intro s. reflexivity. Qed.

Lemma preserves_gets {A} (f : S -> A) : Preserves view (gets f).
Proof. intro s. reflexivity. Qed.

Lemma preserves_liftC {A} (c : completion A) : Preserves view (liftC c).
Proof. intro s. reflexivity. Qed.

Lemma preserves_modify (f : S -> S) :
  (forall s, view (f s) = view s) -> Preserves view (modify f).
Proof. intros H s. apply H. Qed.

Lemma preserves_bind {A B} (c : M S A) (k : A -> M S B) :
  Preserves view c -> (forall a, Preserves view (k a)) -> Preserves view (bind c k).
Proof.
  intros Hc Hk s. unfold bind. specialize (Hc s).
  destruct (c s) as [[a|e] s']; simpl in *.
  - rewrite <- Hc. apply Hk.
  - exact Hc.
Qed.

Lemma preserves_tryCatch {A} (body : M S A) (handler : JsError -> M S A) :
  Preserves view body -> (forall e, Preserves view (handler e)) ->
  Preserves view (tryCatch body handler).
Proof.
  intros Hb Hh s. unfold tryCatch. specialize (Hb s).
  destruct (body s) as [[a|e] s']; simpl in *.
  - exact Hb.
  - rewrite <- Hb. apply Hh.
Qed.

Lemma preserves_if {A} (b : bool) (c1 c2 : M S A) :
  Preserves view c1 -> Preserves view c2 -> Preserves view (if b then c1 else c2).
Proof. now destruct b. Qed.

Lemma preserves_throwIf (b : bool) (e : JsError) : Preserves view (throwIf b e).
Proof. destruct b; intro s; reflexivity. Qed.

(** With a local variable beside the store. *)
Lemma preserves_lift {L A} (c : M S A) :
  Preserves view c -> Preserves (fun ls : L * S => view (snd ls)) (lift c).
Proof.
  intros Hc [l s]. unfold lift. simpl. specialize (Hc s).
  now destruct (c s).
Qed.

Lemma preserves_modifyLocal {L} (f : L -> L) :
  Preserves (fun ls : L * S => view (snd ls)) (modifyLocal f).
Proof. intros [l s]. reflexivity. Qed.

Lemma preserves_getLocal {L} :
  Preserves (fun ls : L * S => view (snd ls)) (@getLocal L S).
Proof. intros [l s]. reflexivity. Qed.

Lemma preserves_withLocal {L A} (l : L) (c : M (L * S) A) :
  Preserves (fun ls : L * S => view (snd ls)) c -> Preserves view (withLocal l c).
Proof.
  intros Hc s. unfold withLocal. specialize (Hc (l, s)).
  now destruct (c (l, s)).
Qed.

End Preservation.

#[local] Hint Resolve preserves_ret preserves_throw preserves_gets preserves_liftC
  preserves_bind preserves_tryCatch preserves_if preserves_throwIf
  preserves_lift preserves_modifyLocal preserves_getLocal preserves_withLocal : frame.

(** The operations of the components keep every view of the machine that
    does not look at its history of requests and entered operations. *)
Section HistoryBlind.
Context {host : Host} {V : Type} (view : Machine -> V).
Hypothesis view_request : forall p m, view (logRequest p m) = view m.
Hypothesis view_enter : forall op m, view (logEnter op m) = view m.

Lemma preserves_enter (op : Operation) : Preserves view (enter op).
Proof. apply preserves_modify. intro m. apply view_enter. Qed.

Lemma preserves_chat (prompt : string) : Preserves view (chat prompt).
Proof.
  intro m. unfold chat.
  destruct (ollama_chat _ _); simpl; apply view_request.
Qed.

#[local] Hint Resolve preserves_enter preserves_chat : frame.

Lemma preserves_callOllama (prompt : string) : Preserves view (callOllama prompt).
Proof. unfold callOllama. auto with frame. Qed.

#[local] Hint Resolve preserves_callOllama : frame.

Lemma preserves_refineUserInput (userInput : string) :
  Preserves view (InputRefinement.refineUserInput userInput).
Proof. unfold InputRefinement.refineUserInput. auto with frame. Qed.

Lemma preserves_selectBestQuery (userPrompt : string) :
  Preserves view (QuerySelector.selectBestQuery userPrompt).
Proof. unfold QuerySelector.selectBestQuery. auto 12 with frame. Qed.

Lemma preserves_selectTablesAndColumns (userPrompt : string) :
  Preserves view (TableSelector.selectTablesAndColumns userPrompt).
Proof. unfold TableSelector.selectTablesAndColumns. auto 12 with frame. Qed.

Lemma preserves_generateRedshiftQuery userPrompt selectedQuery selectedTables selectedColumns :
  Preserves view
    (QueryGenerator.generateRedshiftQuery
       userPrompt selectedQuery selectedTables selectedColumns).
Proof. unfold QueryGenerator.generateRedshiftQuery. auto 8 with frame. Qed.

End HistoryBlind.

(* ===================================================================== *)
(** * What each step returns *)
(* ===================================================================== *)

Section Steps.
Context {host : Host}.

Lemma callOllama_run (prompt : string) (m : Machine) :
  callOllama prompt m =
  (match ollama_chat (List.length (requests m)) prompt with
   | inl content => Return content
   | inr msg => Throw (Error ("Ollama API call failed: " ++ msg))
   end, logRequest prompt m).
Proof.
  unfold callOllama, tryCatch, bind, chat, ret, throw.
  destruct (ollama_chat _ _); reflexivity.
Qed.

(** The refiner returns, whatever the model does: the refined text on a
    reply, the original text and the error message otherwise. *)
Lemma refineUserInput_run (userInput : string) (m : Machine) :
  InputRefinement.refineUserInput userInput m =
  (Return
     (match ollama_chat (List.length (requests m)) (InputRefinement.prompt userInput) with
      | inl response => InputRefinement.mkResult userInput response true None
      | inr msg =>
          InputRefinement.mkResult userInput userInput false
            (Some ("Ollama API call failed: " ++ msg))
      end),
   afterRefinement userInput m).
Proof.
  unfold InputRefinement.refineUserInput, enter, modify.
  erewrite bind_return by reflexivity.
  unfold tryCatch, bind. rewrite callOllama_run. simpl.
  destruct (ollama_chat _ _); reflexivity.
Qed.

(** On an empty catalog the query selector answers without the model. *)
Lemma selectBestQuery_empty (userPrompt : string) (m : Machine) :
  exampleQueries m = [] ->
  QuerySelector.selectBestQuery userPrompt m =
  (Return QuerySelector.noExamples, logEnter SelectBestQuery m).
Proof.
  intro H. unfold QuerySelector.selectBestQuery, enter, modify, bind, gets.
  simpl. rewrite H. reflexivity.
Qed.

Lemma selectBestQuery_run (userPrompt : string) (m : Machine) :
  exampleQueries m <> [] ->
  QuerySelector.selectBestQuery userPrompt m =
  (Return
     (match ollama_chat (List.length (requests m))
              (QuerySelector.prompt (exampleQueries m) userPrompt) with
      | inl response => querySelectionOf response
      | inr msg =>
          QuerySelector.mkResult VNull None (VNum 0%float)
            (VStr ("Error selecting query: Ollama API call failed: " ++ msg))
            (Some false) (Some ("Ollama API call failed: " ++ msg))
      end),
   afterQuerySelection userPrompt m).
Proof.
  intro H. unfold QuerySelector.selectBestQuery, afterQuerySelection, enter, modify.
  erewrite bind_return by reflexivity.
  erewrite bind_return by reflexivity.
  simpl. destruct (exampleQueries m) as [|q qs]; [congruence|]. simpl.
  unfold tryCatch, bind. rewrite callOllama_run. simpl.
  destruct (ollama_chat _ _) as [response|msg]; [|reflexivity].
  unfold querySelectionOf, liftC, ret.
  destruct (JSONparse response) as [result|e]; simpl; [|reflexivity].
  destruct (getNamed result "selectedQuery"); simpl; [|reflexivity].
  destruct (getNamed result "selectedQueryIndex"); simpl; [|reflexivity].
  destruct (getNamed result "confidence"); simpl; [|reflexivity].
  destruct (getNamed result "reasoning"); simpl; reflexivity.
Qed.

(** The query selector returns in every case. *)
Lemma selectBestQuery_returns (userPrompt : string) (m : Machine) :
  exists r,
    QuerySelector.selectBestQuery userPrompt m =
    (Return r, afterQuerySelection userPrompt m).
Proof.
  destruct (exampleQueries m) as [|q qs] eqn:E.
  - exists QuerySelector.noExamples.
    rewrite selectBestQuery_empty by assumption.
    unfold afterQuerySelection. now rewrite E.
  - eexists. apply selectBestQuery_run. congruence.
Qed.

(** On an empty catalog the table selector answers without the model. *)
Lemma selectTablesAndColumns_empty (userPrompt : string) (m : Machine) :
  tableMetadata m = [] ->
  TableSelector.selectTablesAndColumns userPrompt m =
  (Return TableSelector.noMetadata, afterTableSelection userPrompt m).
Proof.
  intro H.
  unfold TableSelector.selectTablesAndColumns, afterTableSelection,
    enter, modify, bind, gets.
  simpl. rewrite H. reflexivity.
Qed.

Lemma selectTablesAndColumns_run (userPrompt : string) (m : Machine) :
  tableMetadata m <> [] ->
  TableSelector.selectTablesAndColumns userPrompt m =
  (Return
     (match ollama_chat (List.length (requests m))
              (TableSelector.prompt (tableMetadata m) userPrompt) with
      | inl response => tableSelectionOf response
      | inr msg =>
          TableSelector.mkResult (VArr []) (VObj [])
            (VStr ("Error selecting tables and columns: Ollama API call failed: " ++ msg))
            (Some (VNum 0%float)) (Some false)
            (Some ("Ollama API call failed: " ++ msg))
      end),
   afterTableSelection userPrompt m).
Proof.
  intro H.
  unfold TableSelector.selectTablesAndColumns, afterTableSelection, enter, modify.
  erewrite bind_return by reflexivity.
  erewrite bind_return by reflexivity.
  simpl. destruct (tableMetadata m) as [|t ts]; [congruence|]. simpl.
  unfold tryCatch, bind. rewrite callOllama_run. simpl.
  destruct (ollama_chat _ _) as [response|msg]; [|reflexivity].
  unfold tableSelectionOf, liftC, ret.
  destruct (JSONparse response) as [result|e]; simpl; [|reflexivity].
  destruct (getNamed result "selectedTables"); simpl; [|reflexivity].
  destruct (getNamed result "selectedColumns"); simpl; [|reflexivity].
  destruct (getNamed result "reasoning"); simpl; [|reflexivity].
  destruct (getNamed result "confidence"); simpl; reflexivity.
Qed.

Lemma selectTablesAndColumns_returns (userPrompt : string) (m : Machine) :
  exists r,
    TableSelector.selectTablesAndColumns userPrompt m =
    (Return r, afterTableSelection userPrompt m).
Proof.
  destruct (tableMetadata m) as [|t ts] eqn:E.
  - eexists. now apply selectTablesAndColumns_empty.
  - eexists. apply selectTablesAndColumns_run. congruence.
Qed.

(** A reply that is not JSON: the table selector's [catch] answers. *)
Lemma tableSelectionOf_malformed (response msg : string) :
  JSON_parse response = inr msg ->
  tableSelectionOf response =
  TableSelector.mkResult (VArr []) (VObj [])
    (VStr ("Error selecting tables and columns: " ++ msg))
    (Some (VNum 0%float)) (Some false) (Some msg).
Proof. intro H. unfold tableSelectionOf, JSONparse. now rewrite H. Qed.

(** A reply that is a JSON object: the query selector echoes its fields. *)
Lemma querySelectionOf_object (response : string) (props : list (string * jsval)) :
  JSON_parse response = inl (VObj props) ->
  querySelectionOf response =
  QuerySelector.mkResult (propertyOf props "selectedQuery")
    (Some (propertyOf props "selectedQueryIndex"))
    (propertyOf props "confidence") (propertyOf props "reasoning")
    (Some true) None.
Proof. intro H. unfold querySelectionOf, JSONparse. now rewrite H. Qed.

(** The query generator: it throws while it builds its prompt, or it
    returns, with a query exactly when it reports success. Either way the
    machine has seen it entered, and the clock has not been read. *)
Lemma generateRedshiftQuery_outcome userPrompt selectedQuery selectedTables selectedColumns m :
  let run := QueryGenerator.generateRedshiftQuery
               userPrompt selectedQuery selectedTables selectedColumns m in
  ((exists e, fst run = Throw e)
   \/ (exists q, fst run =
         Return (QueryGenerator.mkResult (Some q) true None
                   (QueryGenerator.mkMetadata userPrompt selectedQuery
                      selectedTables selectedColumns)))
   \/ (exists msg, fst run =
         Return (QueryGenerator.mkResult None false (Some msg)
                   (QueryGenerator.mkMetadata userPrompt selectedQuery
                      selectedTables selectedColumns))))
  /\ clockReads (snd run) = clockReads m
  /\ catalogs (snd run) = catalogs m.
Proof.
  intro run. split.
  - subst run. unfold QueryGenerator.generateRedshiftQuery, enter, modify.
    erewrite bind_return by reflexivity.
    unfold bind, liftC.
    destruct (QueryGenerator.tablesInfo selectedTables selectedColumns) as [info|e];
      [|left; now exists e].
    destruct (QueryGenerator.prompt userPrompt selectedQuery info) as [p|e];
      [|left; now exists e].
    unfold tryCatch. rewrite callOllama_run.
    destruct (ollama_chat _ _) as [response|msg]; simpl; right.
    + left. now eexists.
    + right. now eexists.
  - split.
    + apply (preserves_generateRedshiftQuery clockReads); reflexivity.
    + apply (preserves_generateRedshiftQuery catalogs); reflexivity.
Qed.

End Steps.

(* ===================================================================== *)
(** * The orchestrator *)
(* ===================================================================== *)

Section Orchestrator.
Context {host : Host}.
Import AIAgent.

(** [processQuery] always returns: the result of its [try], or the result
    as the [try] left it, completed by the [catch]. *)
Lemma processQuery_run (userInput : string) (m : Machine) :
  processQuery userInput m =
  match tryBlock userInput (Date_now (clockReads m))
          (initialResult userInput, logClockRead m) with
  | (Return r, ls) => (Return r, snd ls)
  | (Throw e, ls) =>
      (Return (aborted (Date_now (clockReads m)) (Date_now (clockReads (snd ls)))
                 e (fst ls)),
       logClockRead (snd ls))
  end.
Proof.
  unfold processQuery, now, withLocal, tryCatch, initialResult.
  erewrite bind_return by reflexivity.
  destruct (tryBlock _ _ _) as [[r|e] [l m']]; reflexivity.
Qed.

End Orchestrator.

(** Steps of a run of the orchestrator: a computation that returns, by
    computation or by a lemma [H] on a lifted operation. *)
Ltac returns_by tac := erewrite bind_return by tac.
Ltac pure_step := returns_by reflexivity.
Ltac lifted_step H := returns_by ltac:(apply lift_run; exact H).

Section TryBlock.
Context {host : Host}.
Import AIAgent.

(** The [try] of [processQuery]: when it returns, the result is complete;
    when it throws, the result has no final query and a required step is
    missing or failed. The clock is read once, at the end of a run that
    returns. *)
Lemma tryBlock_outcome (userInput : string) (startTime : Z) (m : Machine) :
  match tryBlock userInput startTime (initialResult userInput, m) with
  | (Return r, ls) =>
      r = fst ls
      /\ success r = true
      /\ (exists q, finalQuery r = Some q)
      /\ requiredStepsSucceeded (steps r)
      /\ error r = None
      /\ processingTime r = (Date_now (clockReads m) - startTime)%Z
      /\ clockReads (snd ls) = S (clockReads m)
  | (Throw e, ls) =>
      finalQuery (fst ls) = None
      /\ ~ requiredStepsSucceeded (steps (fst ls))
      /\ clockReads (snd ls) = clockReads m
  end.
Proof.
  unfold tryBlock, initialResult.
  lifted_step (refineUserInput_run userInput m).
  pure_step.
  destruct (ollama_chat _ _) as [refined|msg]; cbn [InputRefinement.success negb throwIf].
  2:{ erewrite bind_throw by reflexivity. cbn.
      repeat split; try reflexivity.
      intros [[r [H1 H2]] _]. injection H1 as <-. discriminate. }
  pure_step.
  destruct (selectBestQuery_returns refined (afterRefinement userInput m)) as [qs Hqs].
  cbn [InputRefinement.refined].
  lifted_step Hqs. pure_step.
  set (m2 := afterQuerySelection refined (afterRefinement userInput m)) in *.
  destruct (selectTablesAndColumns_returns refined m2) as [ts Hts].
  lifted_step Hts. pure_step.
  set (m3 := afterTableSelection refined m2) in *.
  assert (Hclock : clockReads m3 = clockReads m).
  { subst m3 m2. unfold afterTableSelection, afterQuerySelection, afterRefinement.
    repeat match goal with |- context [match ?x with _ => _ end] => destruct x end;
      reflexivity. }
  destruct (falsy (TableSelector.success ts)) eqn:Hfalsy; cbn [throwIf].
  { erewrite bind_throw by reflexivity. cbn.
    repeat split; try assumption; try reflexivity.
    intros [_ [[t [H1 H2]] _]]. injection H1 as <-.
    rewrite H2 in Hfalsy. discriminate. }
  pure_step.
  pose proof (generateRedshiftQuery_outcome refined (QuerySelector.selectedQuery qs)
                (TableSelector.selectedTables ts) (TableSelector.selectedColumns ts) m3)
    as [Hgen [Hgclock _]].
  cbv zeta in Hgen, Hgclock.
  destruct (QueryGenerator.generateRedshiftQuery _ _ _ _ m3) as [out m4] eqn:Hrun.
  simpl in Hgen, Hgclock.
  destruct Hgen as [[e ->] | [[q ->] | [msg' ->]]].
  - erewrite bind_throw by (apply lift_run; exact Hrun). cbn.
    repeat split; try congruence.
    intros [_ [_ [g [H1 _]]]]. discriminate.
  - lifted_step Hrun. pure_step. cbn [QueryGenerator.success negb throwIf].
    pure_step.
    cbn [QueryGenerator.query QueryGenerator.validateQueryOf].
    returns_by ltac:(apply lift_run; reflexivity).
    do 3 pure_step.
    returns_by ltac:(apply lift_run; reflexivity).
    pure_step. cbn.
    repeat split; try congruence.
    + now exists q.
    + eexists. split; reflexivity.
    + exists ts. split; [reflexivity|].
      destruct (TableSelector.success ts) as [[|]|]; simpl in Hfalsy; congruence.
    + eexists. split; reflexivity.
  - lifted_step Hrun. pure_step. cbn [QueryGenerator.success negb throwIf].
    erewrite bind_throw by reflexivity. cbn.
    repeat split; try congruence.
    intros [_ [_ [g [H1 H2]]]]. injection H1 as <-. discriminate.
Qed.

End TryBlock.

Section Runs.
Context {host : Host}.
Import AIAgent.

(** The machine the table selector finds in a run started on [m]. *)
Lemma before_table_selection (userInput refined : string) (m : Machine) :
  let m2 := afterQuerySelection refined (afterRefinement userInput m) in
  tableMetadata m2 = tableMetadata m
  /\ List.length (requests m2) = tableRequestIndex m
  /\ invoked m2 = (invoked m ++ [RefineUserInput; SelectBestQuery])%list
  /\ clockReads m2 = clockReads m.
Proof.
  unfold afterQuerySelection, afterRefinement, tableRequestIndex. simpl.
  destruct (exampleQueries m); simpl;
    rewrite ?length_app, <- ?app_assoc; simpl; repeat split; lia.
Qed.

Lemma after_table_selection (refined : string) (m2 : Machine) :
  let m3 := afterTableSelection refined m2 in
  invoked m3 = (invoked m2 ++ [SelectTablesAndColumns])%list
  /\ clockReads m3 = clockReads m2.
Proof.
  unfold afterTableSelection. destruct (tableMetadata m2); simpl; split; reflexivity.
Qed.

(** A run whose refinement fails ends there. *)
Lemma processQuery_refinement_abort (userInput msg : string) (m : Machine) :
  ollama_chat (List.length (requests m)) (InputRefinement.prompt userInput) = inr msg ->
  let fallback :=
    InputRefinement.mkResult userInput userInput false
      (Some ("Ollama API call failed: " ++ msg)) in
  processQuery userInput m =
  (Return
     (mkPipelineResult userInput
        (mkSteps (Some fallback) None None None None)
        None false
        (Date_now (S (clockReads m)) - Date_now (clockReads m))
        (Some ("Input refinement failed: Ollama API call failed: " ++ msg))),
   logClockRead (afterRefinement userInput (logClockRead m))).
Proof.
  intros Hchat fallback. rewrite processQuery_run. unfold tryBlock, initialResult.
  lifted_step (refineUserInput_run userInput (logClockRead m)).
  cbn [requests logClockRead]. rewrite Hchat.
  pure_step. cbn [InputRefinement.success negb throwIf].
  erewrite bind_throw by reflexivity.
  reflexivity.
Qed.

(** A run whose refinement succeeds and whose table selection does not
    report success ends after the table selection. *)
Lemma processQuery_table_abort (userInput refined : string) (m : Machine)
      (ts : TableSelector.Result) :
  ollama_chat (List.length (requests m)) (InputRefinement.prompt userInput) = inl refined ->
  let m2 := afterQuerySelection refined (afterRefinement userInput (logClockRead m)) in
  fst (TableSelector.selectTablesAndColumns refined m2) = Return ts ->
  falsy (TableSelector.success ts) = true ->
  exists qs,
    processQuery userInput m =
    (Return
       (mkPipelineResult userInput
          (mkSteps (Some (InputRefinement.mkResult userInput refined true None))
                   (Some qs) (Some ts) None None)
          None false
          (Date_now (S (clockReads m)) - Date_now (clockReads m))
          (Some ("Table selection failed: " ++ showOptional (TableSelector.error ts)))),
     logClockRead (afterTableSelection refined m2)).
Proof.
  intros Hchat m2 Hts Hfalsy.
  destruct (selectBestQuery_returns refined (afterRefinement userInput (logClockRead m)))
    as [qs Hqs].
  destruct (selectTablesAndColumns_returns refined m2) as [ts' Hts'].
  rewrite Hts' in Hts. injection Hts as ->.
  exists qs.
  rewrite processQuery_run. unfold tryBlock, initialResult.
  lifted_step (refineUserInput_run userInput (logClockRead m)).
  cbn [requests logClockRead]. rewrite Hchat.
  pure_step. cbn [InputRefinement.success InputRefinement.refined negb throwIf].
  pure_step. lifted_step Hqs. pure_step.
  fold m2. lifted_step Hts'. pure_step.
  rewrite Hfalsy. cbn [throwIf].
  erewrite bind_throw by reflexivity.
  unfold aborted. cbn [fst snd].
  destruct (after_table_selection refined m2) as [_ ->].
  destruct (before_table_selection userInput refined (logClockRead m)) as [_ [_ [_ H]]].
  fold m2 in H. rewrite H. reflexivity.
Qed.

End Runs.

(* ===================================================================== *)
(** * Properties of the validation *)
(* ===================================================================== *)

Section Validation.
Import QueryGenerator ValidationSpec.

(** C6. For every query string, [validateQuery] makes four checks: the
    text contains SELECT in any case, it contains FROM in any case, its
    trimmed form ends with a semicolon or the text holds no semicolon at
    all, and its trimmed form is not empty; [isValid] is their conjunction.
    On ["SELECT a FROM b;"] the query is valid and no suggestion is made; on
    the empty text [notEmpty] and [isValid] are false. *)
Theorem validateQuery_checks :
  (forall query : string,
     let v := validateQuery query in
     let c := checks v in
     (hasSelect c = true <-> ContainsIgnoringCase "SELECT" query)
     /\ (hasFrom c = true <-> ContainsIgnoringCase "FROM" query)
     /\ (properSyntax c = true <->
         EndsWith ";" (trim query) \/ ~ Contains ";" query)
     /\ (notEmpty c = true <-> trim query <> "")
     /\ isValid v = hasSelect c && hasFrom c && properSyntax c && notEmpty c)
  /\ validateQuery "SELECT a FROM b;"
     = mkValidation true (mkChecks true true true true) []
  /\ notEmpty (checks (validateQuery "")) = false
  /\ isValid (validateQuery "") = false.
Proof.
  split; [|repeat split].
  intros query v c. subst c v. cbn [validateQuery checks isValid hasSelect hasFrom
                                    properSyntax notEmpty values forallb].
  split; [|split; [|split; [|split]]].
  - apply regexTestI_iff.
  - apply regexTestI_iff.
  - rewrite orb_true_iff, endsWith_iff, negb_true_iff, <- includes_iff.
    split; (intros [H | H]; [now left | right]).
    + congruence.
    + now destruct (includes query ";").
  - apply isEmpty_false_iff.
  - now rewrite andb_true_r, !andb_assoc.
Qed.

(** C7. For every outcome of the four checks, [generateSuggestions] gives
    exactly one message for each failing check among [hasSelect], [hasFrom]
    and [notEmpty], in that order, and nothing else: a failing
    [properSyntax] adds no message. *)
Theorem generateSuggestions_messages (hs hf ps ne : bool) :
  let s := generateSuggestions (mkChecks hs hf ps ne) in
  s = ((if hs then [] else [selectMissing])
       ++ (if hf then [] else [fromMissing])
       ++ (if ne then [] else [emptyQuery]))%list
  /\ count_occ string_dec s selectMissing = (if hs then 0 else 1)
  /\ count_occ string_dec s fromMissing = (if hf then 0 else 1)
  /\ count_occ string_dec s emptyQuery = (if ne then 0 else 1)
  /\ List.length s
     = (if hs then 0 else 1) + (if hf then 0 else 1) + (if ne then 0 else 1)
  /\ s = generateSuggestions (mkChecks hs hf (negb ps) ne).
Proof.
  destruct hs, hf, ps, ne; repeat split.
Qed.

End Validation.

(* ===================================================================== *)
(** * Properties of the steps *)
(* ===================================================================== *)

Section StepProperties.
Context {host : Host}.

(** C2. A step result does not always carry a [success] property: on an
    empty catalog the table selector and the query selector return an
    object with neither [success] nor [error], whatever the prompt and the
    history of the machine. *)
Theorem short_circuit_results_lack_success
        (userPrompt : string) (queries : list ExampleQuery.t) (tables : Catalog)
        (history : list string) (reads : nat) (entered : list Operation) :
  fst (TableSelector.selectTablesAndColumns userPrompt
         (mkMachine queries [] history reads entered))
  = Return TableSelector.noMetadata
  /\ TableSelector.success TableSelector.noMetadata = None
  /\ TableSelector.error TableSelector.noMetadata = None
  /\ fst (QuerySelector.selectBestQuery userPrompt
            (mkMachine [] tables history reads entered))
     = Return QuerySelector.noExamples
  /\ QuerySelector.success QuerySelector.noExamples = None
  /\ QuerySelector.error QuerySelector.noExamples = None.
Proof.
  rewrite selectTablesAndColumns_empty, selectBestQuery_empty by reflexivity.
  repeat split.
Qed.

(** C5. The query generator throws to its caller when [selectedTables] is
    [undefined]: the fault of [selectedTables.map] is raised before its
    [try] is entered. In a run this happens when the model answers the
    table selector with the JSON text of an empty object: the orchestrator
    catches the fault and reports it without the name of a step. *)
Theorem generateRedshiftQuery_throws_on_missing_tables
        (userPrompt : string) (selectedQuery selectedColumns : jsval) (m : Machine) :
  fst (QueryGenerator.generateRedshiftQuery
         userPrompt selectedQuery VUndefined selectedColumns m)
  = Throw (TypeError (faultMessage (ReadOfNullish VUndefined (VStr "map"))))
  /\ (let run :=
        @AIAgent.processQuery
          (Sample.scripted [inl "monthly revenue"; inl Sample.selectionReply; inl "{}"])
          "sales per month" Sample.agent in
      exists r,
        fst run = Return r
        /\ option_map TableSelector.success (AIAgent.tableSelection (AIAgent.steps r))
           = Some (Some true)
        /\ AIAgent.queryGeneration (AIAgent.steps r) = None
        /\ AIAgent.success r = false
        /\ AIAgent.error r
           = Some "Cannot read properties of undefined (reading 'map')"
        /\ invoked (snd run)
           = [RefineUserInput; SelectBestQuery; SelectTablesAndColumns;
              GenerateRedshiftQuery]).
Proof.
  split.
  - reflexivity.
  - eexists. vm_compute. repeat split.
Qed.

(** C8. On a catalog of examples that is not empty, when the model's reply
    parses as a JSON object, [selectBestQuery] returns [success: true] with
    [selectedQuery], [confidence] and [reasoning] read from that object as
    they are. *)
Theorem selectBestQuery_echoes_reply
        (userPrompt response : string) (props : list (string * jsval)) (m : Machine) :
  exampleQueries m <> [] ->
  ollama_chat (List.length (requests m))
    (QuerySelector.prompt (exampleQueries m) userPrompt) = inl response ->
  JSON_parse response = inl (VObj props) ->
  exists r,
    fst (QuerySelector.selectBestQuery userPrompt m) = Return r
    /\ QuerySelector.selectedQuery r = propertyOf props "selectedQuery"
    /\ QuerySelector.confidence r = propertyOf props "confidence"
    /\ QuerySelector.reasoning r = propertyOf props "reasoning"
    /\ QuerySelector.success r = Some true.
Proof.
  intros Hcatalog Hchat Hparse.
  rewrite selectBestQuery_run by assumption.
  rewrite Hchat, (querySelectionOf_object _ _ Hparse).
  eexists. repeat split.
Qed.

End StepProperties.

(* ===================================================================== *)
(** * Properties of a run *)
(* ===================================================================== *)

Section RunProperties.
Context {host : Host}.
Import AIAgent.

(** C1. Every call of [processQuery] returns a result in which
    [finalQuery] is not [null] exactly when [success] is [true], which is
    exactly when the three required steps (input refinement, table
    selection, query generation) have succeeded; and [processingTime] is
    the time elapsed between the two readings of the clock, on success and
    on failure alike. *)
Theorem processQuery_result_invariant (userInput : string) (m : Machine) :
  exists r m',
    processQuery userInput m = (Return r, m')
    /\ (finalQuery r <> None <-> success r = true)
    /\ (success r = true <-> requiredStepsSucceeded (steps r))
    /\ processingTime r
       = (Date_now (S (clockReads m)) - Date_now (clockReads m))%Z
    /\ clockReads m' = clockReads m + 2.
Proof.
  rewrite processQuery_run.
  pose proof (tryBlock_outcome userInput (Date_now (clockReads m)) (logClockRead m)) as H.
  destruct (tryBlock _ _ _) as [[r|e] [l m']]; cbn [fst snd] in *.
  - destruct H as [_ [Hs [[q Hq] [Hreq [_ [Ht Hc]]]]]].
    exists r, m'. rewrite Hs, Hq, Ht, Hc. simpl.
    split; [reflexivity|].
    split; [split; congruence|].
    split; [split; [intros _; exact Hreq | reflexivity]|].
    split; [reflexivity | lia].
  - destruct H as [Hq [Hreq Hc]].
    eexists _, _. split; [reflexivity|].
    unfold aborted. simpl. rewrite Hq, Hc. simpl.
    split; [split; congruence|].
    split; [split; [discriminate | intro Hr; now destruct Hreq]|].
    split; [reflexivity | lia].
Qed.

(** C3. When the model call of the input refiner throws,
    [refineUserInput] returns [success: false] with [refined] equal to the
    original input, and the run of [processQuery] returns [success: false]
    with an error that starts with the words of the failed step. *)
Theorem refinement_failure_aborts_run (userInput msg : string) (m : Machine) :
  ollama_chat (List.length (requests m)) (InputRefinement.prompt userInput) = inr msg ->
  let fallback :=
    InputRefinement.mkResult userInput userInput false
      (Some ("Ollama API call failed: " ++ msg)) in
  fst (InputRefinement.refineUserInput userInput m) = Return fallback
  /\ exists r m',
       processQuery userInput m = (Return r, m')
       /\ refinement (steps r) = Some fallback
       /\ success r = false
       /\ error r
          = Some ("Input refinement failed: " ++ "Ollama API call failed: " ++ msg)
       /\ finalQuery r = None
       /\ invoked m' = (invoked m ++ [RefineUserInput])%list.
Proof.
  intros Hchat fallback. split.
  - rewrite refineUserInput_run, Hchat. reflexivity.
  - rewrite (processQuery_refinement_abort _ _ _ Hchat).
    eexists _, _. repeat split.
Qed.

(** C4. In a run on a table catalog that is not empty, when the reply of
    the model to the table selector is not valid JSON, the table selection
    is recorded with [success: false], [selectedTables: []] and
    [selectedColumns: {}], the run returns [success: false] with an error
    that starts with the words of the failed step, and the query generator
    is never entered. *)
Theorem malformed_table_reply_aborts_run
        (userInput refined response msg : string) (m : Machine) :
  tableMetadata m <> [] ->
  ollama_chat (List.length (requests m)) (InputRefinement.prompt userInput)
  = inl refined ->
  ollama_chat (tableRequestIndex m) (TableSelector.prompt (tableMetadata m) refined)
  = inl response ->
  JSON_parse response = inr msg ->
  exists r m' t,
    processQuery userInput m = (Return r, m')
    /\ tableSelection (steps r) = Some t
    /\ TableSelector.success t = Some false
    /\ TableSelector.selectedTables t = VArr []
    /\ TableSelector.selectedColumns t = VObj []
    /\ TableSelector.confidence t = Some (VNum 0%float)
    /\ TableSelector.error t = Some msg
    /\ success r = false
    /\ error r = Some ("Table selection failed: " ++ msg)
    /\ finalQuery r = None
    /\ queryGeneration (steps r) = None
    /\ invoked m'
       = (invoked m ++ [RefineUserInput; SelectBestQuery; SelectTablesAndColumns])%list.
Proof.
  intros Hcatalog Hrefine Htable Hparse.
  set (m2 := afterQuerySelection refined (afterRefinement userInput (logClockRead m))).
  destruct (before_table_selection userInput refined (logClockRead m))
    as [Hmeta [Hindex [Hinvoked _]]].
  fold m2 in Hmeta, Hindex, Hinvoked.
  change (tableMetadata (logClockRead m)) with (tableMetadata m) in Hmeta.
  change (tableRequestIndex (logClockRead m)) with (tableRequestIndex m) in Hindex.
  change (invoked (logClockRead m)) with (invoked m) in Hinvoked.
  assert (Hts : TableSelector.selectTablesAndColumns refined m2
                = (Return (tableSelectionOf response), afterTableSelection refined m2)).
  { rewrite selectTablesAndColumns_run by congruence.
    now rewrite Hindex, Hmeta, Htable. }
  rewrite (tableSelectionOf_malformed _ _ Hparse) in Hts.
  destruct (processQuery_table_abort userInput refined m _ Hrefine
              (f_equal fst Hts) eq_refl) as [qs Hrun].
  fold m2 in Hrun. rewrite Hrun.
  eexists _, _, _. repeat split.
  cbn [invoked logClockRead].
  destruct (after_table_selection refined m2) as [-> _].
  rewrite Hinvoked, <- app_assoc. reflexivity.
Qed.

(** C10. In a run on an empty table catalog in which the input refinement
    succeeds, the table selection is recorded without a [success]
    property, the orchestrator takes it as failed, the query generator is
    never entered, and the run returns [success: false] with the error
    ["Table selection failed: undefined"]. *)
Theorem empty_table_catalog_aborts_run (userInput refined : string) (m : Machine) :
  tableMetadata m = [] ->
  ollama_chat (List.length (requests m)) (InputRefinement.prompt userInput)
  = inl refined ->
  exists r m',
    processQuery userInput m = (Return r, m')
    /\ tableSelection (steps r) = Some TableSelector.noMetadata
    /\ TableSelector.success TableSelector.noMetadata = None
    /\ success r = false
    /\ error r = Some "Table selection failed: undefined"
    /\ finalQuery r = None
    /\ queryGeneration (steps r) = None
    /\ invoked m'
       = (invoked m ++ [RefineUserInput; SelectBestQuery; SelectTablesAndColumns])%list.
Proof.
  intros Hcatalog Hrefine.
  set (m2 := afterQuerySelection refined (afterRefinement userInput (logClockRead m))).
  destruct (before_table_selection userInput refined (logClockRead m))
    as [Hmeta [_ [Hinvoked _]]].
  fold m2 in Hmeta, Hinvoked.
  change (tableMetadata (logClockRead m)) with (tableMetadata m) in Hmeta.
  change (invoked (logClockRead m)) with (invoked m) in Hinvoked.
  assert (Hts : TableSelector.selectTablesAndColumns refined m2
                = (Return TableSelector.noMetadata, afterTableSelection refined m2)).
  { apply selectTablesAndColumns_empty. congruence. }
  destruct (processQuery_table_abort userInput refined m _ Hrefine
              (f_equal fst Hts) eq_refl) as [qs Hrun].
  fold m2 in Hrun. rewrite Hrun.
  eexists _, _. repeat split.
  cbn [invoked logClockRead].
  destruct (after_table_selection refined m2) as [-> _].
  rewrite Hinvoked, <- app_assoc. reflexivity.
Qed.

End RunProperties.

(* ===================================================================== *)
(** * The catalogs across a run *)
(* ===================================================================== *)

Section Catalogs.
Context {host : Host}.
Import AIAgent.

Lemma preserves_now : Preserves catalogs now.
Proof. intro m. reflexivity. Qed.

(** A leaf of the orchestrator: a lifted operation or a change of the
    local result. *)
Ltac frame_leaf :=
  first
    [ apply preserves_modifyLocal
    | apply preserves_getLocal
    | apply preserves_throwIf
    | apply preserves_lift;
      first
        [ apply preserves_now
        | apply preserves_refineUserInput; reflexivity
        | apply preserves_selectBestQuery; reflexivity
        | apply preserves_selectTablesAndColumns; reflexivity
        | apply preserves_generateRedshiftQuery; reflexivity
        | apply preserves_bind;
          [apply preserves_enter; reflexivity | intro; apply preserves_liftC] ] ].

Ltac frame_chain := repeat (apply preserves_bind; [frame_leaf | intro]); frame_leaf.

Lemma preserves_processQuery (userInput : string) :
  Preserves catalogs (processQuery userInput).
Proof.
  unfold processQuery.
  apply preserves_bind; [apply preserves_now | intro startTime].
  apply preserves_withLocal, preserves_tryCatch.
  - unfold tryBlock. frame_chain.
  - intro e. unfold catchBlock. frame_chain.
Qed.

(** C9. A run of [processQuery] leaves the catalog of example queries and
    the catalog of table metadata as they were, whatever its outcome, and
    so does each step taken alone; the catalogs change through
    [addExampleQuery], which appends an entry, and [addTableMetadata],
    which assigns a property, and each of these leaves the other catalog
    alone. *)
Theorem run_preserves_catalogs :
  (forall userInput, Preserves catalogs (processQuery userInput))
  /\ (forall userInput, Preserves catalogs (InputRefinement.refineUserInput userInput))
  /\ (forall userPrompt, Preserves catalogs (QuerySelector.selectBestQuery userPrompt))
  /\ (forall userPrompt,
        Preserves catalogs (TableSelector.selectTablesAndColumns userPrompt))
  /\ (forall userPrompt selectedQuery selectedTables selectedColumns,
        Preserves catalogs
          (QueryGenerator.generateRedshiftQuery
             userPrompt selectedQuery selectedTables selectedColumns))
  /\ (forall query description m,
        catalogs (snd (addExampleQuery query description m))
        = ((exampleQueries m ++ [ExampleQuery.make query description])%list,
           tableMetadata m))
  /\ (forall tableName metadata m,
        catalogs (snd (addTableMetadata tableName metadata m))
        = (exampleQueries m,
           TableSelector.assign tableName metadata (tableMetadata m))).
Proof.
  split; [exact preserves_processQuery|].
  split; [intro; now apply preserves_refineUserInput|].
  split; [intro; now apply preserves_selectBestQuery|].
  split; [intro; now apply preserves_selectTablesAndColumns|].
  split; [intros; now apply preserves_generateRedshiftQuery|].
  split; reflexivity.
Qed.

End Catalogs.

(* ===================================================================== *)
(** * Which operations return *)
(* ===================================================================== *)

Section Returning.
Context {host : Host}.


Lemma mapC_returns {A B} (f : A -> completion B) (l : list A) :
  (forall x, In x l -> exists y, f x = Return y) ->
  exists ys, mapC f l = Return ys.
Proof.
  induction l as [|x l IH]; intro H; simpl.
  - now exists [].
  - destruct (H x (or_introl eq_refl)) as [y ->].
    destruct IH as [ys ->]; [intros z Hz; apply H; now right|].
    now eexists.
Qed.

Lemma Array_join_strings (names : list string) (sep : string) :
  Array_join (map VStr names) sep = Return (String.concat sep names).
Proof.
  unfold Array_join.
  assert (H : mapC (fun e => match e with
                             | VUndefined | VNull => Return ""
                             | _ => ToString e
                             end) (map VStr names) = Return names).
  { induction names as [|n names IH]; simpl; [reflexivity | now rewrite IH]. }
  now rewrite H.
Qed.

Lemma ownProp_columnsObject (columns : list (string * list string)) (table : string) :
  TableSelector.hasKey table columns = true ->
  exists names,
    ownProp (map (fun kv => (fst kv, VArr (map VStr (snd kv)))) columns) table
    = Some (VArr (map VStr names)).
Proof.
  induction columns as [|[k names] columns IH]; simpl; [discriminate|].
  destruct (String.eqb k table); simpl; [intros _; now exists names | exact IH].
Qed.

(** When the selected tables are an array of names, each with an array of
    column names among the selected columns, and the reference query is a
    string or [null], the query generator builds its prompt and returns,
    whatever the model does. *)
Theorem generateRedshiftQuery_returns_on_requested_shape
        (userPrompt : string) (selectedQuery : option string)
        (tables : list string) (columns : list (string * list string)) :
  (forall table, In table tables -> TableSelector.hasKey table columns = true) ->
  Returns
    (QueryGenerator.generateRedshiftQuery userPrompt
       (match selectedQuery with Some q => VStr q | None => VNull end)
       (VArr (map VStr tables))
       (columnsObject columns)).
Proof.
  intros Hkeys m.
  unfold QueryGenerator.generateRedshiftQuery, enter, modify.
  erewrite bind_return by reflexivity.
  assert (Hinfo : exists info,
             QueryGenerator.tablesInfo (VArr (map VStr tables)) (columnsObject columns)
             = Return info).
  { unfold QueryGenerator.tablesInfo, callMap.
    destruct (mapC_returns (QueryGenerator.tableInfo (columnsObject columns))
                (map VStr tables)) as [infos ->]; [|now eexists].
    intros x Hx. apply in_map_iff in Hx. destruct Hx as [table [<- Hin]].
    unfold QueryGenerator.tableInfo, columnsObject, getComputed. simpl.
    destruct (ownProp_columnsObject columns table (Hkeys table Hin)) as [names ->].
    simpl. rewrite Array_join_strings. now eexists. }
  destruct Hinfo as [info Hinfo].
  assert (Hprompt : exists p,
             QueryGenerator.prompt userPrompt
               (match selectedQuery with Some q => VStr q | None => VNull end) info
             = Return p).
  { unfold QueryGenerator.prompt, QueryGenerator.referencePattern.
    destruct selectedQuery as [q|]; simpl; [destruct (isEmpty q); simpl|]; now eexists. }
  destruct Hprompt as [p Hprompt].
  unfold bind, liftC. rewrite Hinfo, Hprompt.
  unfold tryCatch. rewrite callOllama_run.
  destruct (ollama_chat _ _); simpl; now eexists.
Qed.

End Returning.

(* ===================================================================== *)
(** * Concrete runs *)
(* ===================================================================== *)

Section ConcreteRuns.
Import AIAgent.

(** The model is unreachable: the run of the sample agent stops at the
    refinement. *)
Lemma refinement_failure_aborts_run_witness :
  let host := Sample.scripted [] in
  fst (@InputRefinement.refineUserInput host "sales per month" Sample.agent)
  = Return (InputRefinement.mkResult "sales per month" "sales per month" false
              (Some "Ollama API call failed: fetch failed"))
  /\ exists r m',
       @processQuery host "sales per month" Sample.agent = (Return r, m')
       /\ success r = false
       /\ error r = Some "Input refinement failed: Ollama API call failed: fetch failed"
       /\ invoked m' = [RefineUserInput].
Proof.
  intro host.
  destruct (@refinement_failure_aborts_run host "sales per month" "fetch failed"
              Sample.agent eq_refl)
    as [Hstep [r [m' [Hrun [_ [Hs [He [_ Hi]]]]]]]].
  split; [exact Hstep|].
  exists r, m'. repeat split; assumption.
Defined.

(** The model answers the table selector in prose: the run of the sample
    agent stops at the table selection. *)
Lemma malformed_table_reply_aborts_run_witness :
  let host :=
    Sample.scripted [inl "monthly revenue"; inl Sample.selectionReply;
                     inl Sample.proseReply] in
  exists r m' t,
    @processQuery host "sales per month" Sample.agent = (Return r, m')
    /\ tableSelection (steps r) = Some t
    /\ TableSelector.success t = Some false
    /\ TableSelector.selectedTables t = VArr []
    /\ TableSelector.selectedColumns t = VObj []
    /\ success r = false
    /\ queryGeneration (steps r) = None
    /\ invoked m' = [RefineUserInput; SelectBestQuery; SelectTablesAndColumns].
Proof.
  intro host.
  edestruct (@malformed_table_reply_aborts_run host "sales per month"
               "monthly revenue" Sample.proseReply Sample.proseFault Sample.agent)
    as [r [m' [t [Hrun [Ht [Hs [Htab [Hcol [_ [_ [Hr [_ [_ [Hg Hi]]]]]]]]]]]]]].
  - discriminate.
  - reflexivity.
  - reflexivity.
  - reflexivity.
  - exists r, m', t. repeat split; assumption.
Defined.

(** The model answers the query selector with a JSON object: its fields
    come back as they are. *)
Lemma selectBestQuery_echoes_reply_witness :
  let host := Sample.scripted [inl Sample.selectionReply] in
  exists r,
    fst (@QuerySelector.selectBestQuery host "monthly revenue" Sample.agent) = Return r
    /\ QuerySelector.selectedQuery r = VStr "SELECT 1;"
    /\ QuerySelector.confidence r = VNum 90%float
    /\ QuerySelector.reasoning r = VStr "closest"
    /\ QuerySelector.success r = Some true.
Proof.
  intro host.
  edestruct (@selectBestQuery_echoes_reply host "monthly revenue"
               Sample.selectionReply Sample.selectionProps Sample.agent)
    as [r [Hrun [Hq [Hc [Hr Hs]]]]].
  - discriminate.
  - reflexivity.
  - reflexivity.
  - exists r. repeat split; assumption.
Defined.

(** An agent without table metadata: the run stops at the table
    selection, with an error that names no cause. *)
Lemma empty_table_catalog_aborts_run_witness :
  let host := Sample.scripted [inl "monthly revenue"] in
  exists r m',
    @processQuery host "sales per month" Sample.agentWithoutTables = (Return r, m')
    /\ success r = false
    /\ error r = Some "Table selection failed: undefined"
    /\ queryGeneration (steps r) = None
    /\ invoked m' = [RefineUserInput; SelectBestQuery; SelectTablesAndColumns].
Proof.
  intro host.
  edestruct (@empty_table_catalog_aborts_run host "sales per month"
               "monthly revenue" Sample.agentWithoutTables)
    as [r [m' [Hrun [_ [_ [Hs [He [_ [Hg Hi]]]]]]]]].
  - reflexivity.
  - reflexivity.
  - exists r, m'. repeat split; assumption.
Defined.

(** The query generator on one table with its two columns: it returns
    the trimmed reply of the model. *)
Lemma generateRedshiftQuery_returns_on_requested_shape_witness :
  exists r,
    fst (@QueryGenerator.generateRedshiftQuery
           (Sample.scripted [inl " SELECT 1; "]) "monthly revenue"
           (VStr "SELECT 1;") (VArr [VStr "orders"])
           (columnsObject [("orders", ["order_id"; "order_amount"])])
           Sample.agent)
    = Return r
    /\ QueryGenerator.query r = Some "SELECT 1;".
Proof.
  destruct (@generateRedshiftQuery_returns_on_requested_shape
              (Sample.scripted [inl " SELECT 1; "]) "monthly revenue"
              (Some "SELECT 1;") ["orders"]
              [("orders", ["order_id"; "order_amount"])])
    with (s := Sample.agent) as [r Hr].
  - intros table [<- | []]. reflexivity.
  - exists r. split; [exact Hr|].
    vm_compute in Hr. injection Hr as <-. reflexivity.
Defined.

(** The sample agent with a model that answers every step as asked: the
    run succeeds, the final query is the trimmed reply, and it is valid. *)
Example successful_run :
  let host :=
    Sample.scripted [inl "monthly revenue"; inl Sample.selectionReply;
                     inl Sample.tablesReply; inl " SELECT SUM(order_amount) FROM orders; "] in
  exists r m',
    @processQuery host "sales per month" Sample.agent = (Return r, m')
    /\ success r = true
    /\ finalQuery r = Some "SELECT SUM(order_amount) FROM orders;"
    /\ option_map QueryGenerator.isValid (validation (steps r)) = Some true
    /\ processingTime r = 250%Z
    /\ error r = None
    /\ catalogs m' = catalogs Sample.agent
    /\ invoked m'
       = [RefineUserInput; SelectBestQuery; SelectTablesAndColumns;
          GenerateRedshiftQuery; ValidateQuery].
Proof.
  intro host. eexists _, _. split; [vm_compute; reflexivity|].
  repeat split.
Qed.

End ConcreteRuns.

(* ===================================================================== *)
(** * Every run ends in one of the five outcomes *)
(* ===================================================================== *)

Section RunOutcome.
Context {host : Host}.
Import AIAgent.

Lemma selectBestQuery_at (userPrompt : string) (m : Machine) :
  QuerySelector.selectBestQuery userPrompt m =
  (Return (querySelectionAt userPrompt m), afterQuerySelection userPrompt m).
Proof.
  unfold querySelectionAt.
  destruct (exampleQueries m) as [|q qs] eqn:E.
  - rewrite selectBestQuery_empty by assumption.
    unfold afterQuerySelection. now rewrite E.
  - rewrite selectBestQuery_run by congruence. now rewrite E.
Qed.

Lemma selectTablesAndColumns_at (userPrompt : string) (m : Machine) :
  TableSelector.selectTablesAndColumns userPrompt m =
  (Return (tableSelectionAt userPrompt m), afterTableSelection userPrompt m).
Proof.
  unfold tableSelectionAt.
  destruct (tableMetadata m) as [|t ts] eqn:E.
  - now rewrite selectTablesAndColumns_empty.
  - rewrite selectTablesAndColumns_run by congruence. now rewrite E.
Qed.

(** The query generator, step by step: a fault while the prompt is built
    reaches the caller; once the prompt is built the generator returns,
    with the trimmed reply or with the message of the failed call. *)
Lemma generateRedshiftQuery_run userPrompt selectedQuery selectedTables selectedColumns m :
  QueryGenerator.generateRedshiftQuery
    userPrompt selectedQuery selectedTables selectedColumns m =
  match generatorPrompt userPrompt selectedQuery selectedTables selectedColumns with
  | Throw e => (Throw e, logEnter GenerateRedshiftQuery m)
  | Return prompt =>
      (Return
         (match ollama_chat (List.length (requests m)) prompt with
          | inl response =>
              QueryGenerator.mkResult (Some (trim response)) true None
                (QueryGenerator.mkMetadata userPrompt selectedQuery
                   selectedTables selectedColumns)
          | inr msg =>
              QueryGenerator.mkResult None false
                (Some ("Ollama API call failed: " ++ msg))
                (QueryGenerator.mkMetadata userPrompt selectedQuery
                   selectedTables selectedColumns)
          end),
       logRequest prompt (logEnter GenerateRedshiftQuery m))
  end.
Proof.
  unfold QueryGenerator.generateRedshiftQuery, generatorPrompt, enter, modify.
  erewrite bind_return by reflexivity.
  unfold bind, liftC.
  destruct (QueryGenerator.tablesInfo selectedTables selectedColumns) as [info|e];
    [|reflexivity].
  cbn [bindC].
  destruct (QueryGenerator.prompt userPrompt selectedQuery info) as [p|e];
    [|reflexivity].
  unfold tryCatch. rewrite callOllama_run.
  cbn [requests logEnter].
  destruct (ollama_chat _ _); reflexivity.
Qed.

(** Every run of [processQuery] returns, in one of the five outcomes. *)
Lemma processQuery_outcome (userInput : string) (m : Machine) :
  exists r m',
    processQuery userInput m = (Return r, m') /\ Outcome userInput m r m'.
Proof.
  rewrite processQuery_run. unfold tryBlock, initialResult.
  lifted_step (refineUserInput_run userInput (logClockRead m)).
  cbn [requests logClockRead].
  destruct (ollama_chat (List.length (requests m)) (InputRefinement.prompt userInput))
    as [refined|msg] eqn:Hrefine.
  2:{ pure_step. cbn [InputRefinement.success negb throwIf].
      erewrite bind_throw by reflexivity.
      eexists _, _. split; [reflexivity|].
      apply (RefinementFailed userInput m msg Hrefine). }
  pure_step. cbn [InputRefinement.success InputRefinement.refined negb throwIf].
  pure_step.
  set (m1 := afterRefinement userInput (logClockRead m)).
  lifted_step (selectBestQuery_at refined m1). pure_step.
  set (m2 := afterQuerySelection refined m1).
  lifted_step (selectTablesAndColumns_at refined m2). pure_step.
  set (m3 := afterTableSelection refined m2).
  set (qs := querySelectionAt refined m1).
  set (ts := tableSelectionAt refined m2).
  assert (Hclock : clockReads m3 = S (clockReads m)).
  { destruct (after_table_selection refined m2) as [_ H]. fold m3 in H. rewrite H.
    destruct (before_table_selection userInput refined (logClockRead m))
      as [_ [_ [_ H']]]. fold m1 m2 in H'. rewrite H'. reflexivity. }
  destruct (falsy (TableSelector.success ts)) eqn:Hfalsy; cbn [throwIf].
  { erewrite bind_throw by reflexivity.
    eexists _, _. split; [reflexivity|].
    unfold aborted. cbn [fst snd]. rewrite Hclock.
    apply (TableSelectionFailed userInput m refined Hrefine Hfalsy). }
  assert (Hsuccess : TableSelector.success ts = Some true).
  { destruct (TableSelector.success ts) as [[|]|]; simpl in Hfalsy; congruence. }
  pure_step.
  pose proof (generateRedshiftQuery_run refined (QuerySelector.selectedQuery qs)
                (TableSelector.selectedTables ts) (TableSelector.selectedColumns ts) m3)
    as Hgen.
  destruct (generatorPrompt refined (QuerySelector.selectedQuery qs)
              (TableSelector.selectedTables ts) (TableSelector.selectedColumns ts))
    as [prompt|e] eqn:Hprompt.
  2:{ erewrite bind_throw by (apply lift_run; exact Hgen).
      eexists _, _. split; [reflexivity|].
      unfold aborted. cbn [fst snd clockReads logEnter]. rewrite Hclock.
      apply (GenerationThrew userInput m refined e Hrefine Hsuccess Hprompt). }
  lifted_step Hgen. pure_step.
  destruct (ollama_chat (List.length (requests m3)) prompt) as [response|msg] eqn:Hchat;
    cbn [QueryGenerator.success negb throwIf].
  - pure_step.
    cbn [QueryGenerator.query QueryGenerator.validateQueryOf].
    returns_by ltac:(apply lift_run; reflexivity).
    do 3 pure_step.
    returns_by ltac:(apply lift_run; reflexivity).
    pure_step.
    eexists _, _. split; [reflexivity|].
    cbn. rewrite Hclock.
    apply (Succeeded userInput m refined prompt response Hrefine Hsuccess Hprompt Hchat).
  - erewrite bind_throw by reflexivity.
    eexists _, _. split; [reflexivity|].
    unfold aborted. cbn. rewrite Hclock.
    apply (GenerationFailed userInput m refined prompt msg Hrefine Hsuccess Hprompt Hchat).
Qed.

End RunOutcome.

(* ===================================================================== *)
(** * The trace and the result of a run *)
(* ===================================================================== *)

Section RunShape.
Context {host : Host}.
Import AIAgent.

(** The history of the machine after the two selectors. *)
Lemma history_after_selection (userInput refined : string) (m : Machine) :
  let m3 := afterTableSelection refined
              (afterQuerySelection refined (afterRefinement userInput m)) in
  invoked m3
  = (invoked m ++ [RefineUserInput; SelectBestQuery; SelectTablesAndColumns])%list
  /\ clockReads m3 = clockReads m
  /\ exists sent,
       requests m3 = (requests m ++ InputRefinement.prompt userInput :: sent)%list
       /\ List.length sent <= 2.
Proof.
  unfold afterTableSelection, afterQuerySelection, afterRefinement.
  cbn [exampleQueries logRequest logEnter].
  destruct (exampleQueries m); cbn [tableMetadata logRequest logEnter];
    destruct (tableMetadata m); cbn [invoked requests clockReads logRequest logEnter];
    rewrite <- ?app_assoc; cbn [app];
    (split; [reflexivity | split; [reflexivity | eexists; split; [reflexivity | simpl; lia]]]).
Qed.

(** Every run enters the operations in the order refinement, query
    selection, table selection, query generation, validation, each at most
    once and none after one that ended the run; validation is entered
    exactly in the runs that succeed. A run sends the refinement prompt of
    the user input first and at most three prompts after it, keeps what
    the machine had sent before, and reads the clock twice. *)
Theorem run_enters_steps_in_order (userInput : string) (m : Machine) :
  exists r k sent,
    fst (processQuery userInput m) = Return r
    /\ invoked (snd (processQuery userInput m))
       = (invoked m ++ firstn k pipelineOrder)%list
    /\ 1 <= k <= 5
    /\ (k = 5 <-> success r = true)
    /\ requests (snd (processQuery userInput m))
       = (requests m ++ InputRefinement.prompt userInput :: sent)%list
    /\ List.length sent <= 3
    /\ clockReads (snd (processQuery userInput m)) = clockReads m + 2.
Proof.
  destruct (processQuery_outcome userInput m) as [r [m' [Hrun Hout]]].
  rewrite Hrun. cbn [fst snd]. exists r.
  destruct Hout as [msg _ | refined _ m2 qs ts _ | refined e _ m2 qs ts _ _
                    | refined prompt msg _ m2 m3 qs ts _ _ _
                    | refined prompt response _ m2 m3 qs ts _ _ _].
  - exists 1, []. cbn. repeat split; try lia; discriminate.
  - destruct (history_after_selection userInput refined (logClockRead m))
      as [Hi [Hc [sent [Hr Hl]]]].
    exists 3, sent. cbn [invoked requests clockReads logClockRead success].
    subst m2. rewrite Hi, Hr, Hc. cbn.
    repeat split; try lia; discriminate.
  - destruct (history_after_selection userInput refined (logClockRead m))
      as [Hi [Hc [sent [Hr Hl]]]].
    exists 4, sent. cbn [invoked requests clockReads logClockRead logEnter success].
    subst m2. rewrite Hi, Hr, Hc, <- app_assoc. cbn.
    repeat split; try lia; discriminate.
  - destruct (history_after_selection userInput refined (logClockRead m))
      as [Hi [Hc [sent [Hr Hl]]]].
    exists 4, (sent ++ [prompt])%list.
    cbn [invoked requests clockReads logClockRead logEnter logRequest success].
    subst m3 m2. rewrite Hi, Hr, Hc, <- !app_assoc, length_app. cbn.
    repeat split; try lia; discriminate.
  - destruct (history_after_selection userInput refined (logClockRead m))
      as [Hi [Hc [sent [Hr Hl]]]].
    exists 5, (sent ++ [prompt])%list.
    cbn [invoked requests clockReads logClockRead logEnter logRequest success].
    subst m3 m2. rewrite Hi, Hr, Hc, <- !app_assoc, length_app. cbn.
    repeat split; try lia.
Qed.

End RunShape.

Section RunResult.
Context {host : Host}.
Import AIAgent.



End RunResult.

(* ===================================================================== *)
(** * The query selection does not gate a run *)
(* ===================================================================== *)

Section QuerySelectionNotFatal.
Context {host : Host}.
Import AIAgent.



End QuerySelectionNotFatal.

(* ===================================================================== *)
(** * The summary of a run *)
(* ===================================================================== *)

Section SummaryOfRun.
Context {host : Host}.
Import AIAgent.




End SummaryOfRun.

(* ===================================================================== *)
(** * The catalogs as maps and as sequences *)
(* ===================================================================== *)

Section CatalogUpdates.
Context {A : Type}.
Import TableSelector.

Lemma lookup_none_iff (key : string) (obj : list (string * A)) :
  lookup key obj = None <-> hasKey key obj = false.
Proof.
  unfold hasKey. induction obj as [|[k v] obj IH]; simpl; [tauto|].
  destruct (String.eqb k key); simpl; [split; discriminate | exact IH].
Qed.

Lemma keys_replaceValue (key : string) (v : A) (obj : list (string * A)) :
  map fst (replaceValue key v obj) = map fst obj.
Proof.
  induction obj as [|[k old] obj IH]; simpl; [reflexivity|].
  destruct (String.eqb k key); simpl; [reflexivity | now rewrite IH].
Qed.

Lemma lookup_replaceValue (key other : string) (v : A) (obj : list (string * A)) :
  lookup other (replaceValue key v obj)
  = if String.eqb key other && hasKey key obj then Some v else lookup other obj.
Proof.
  unfold hasKey. induction obj as [|[k old] obj IH]; simpl.
  - now rewrite andb_false_r.
  - destruct (String.eqb k key) eqn:Ek; simpl.
    + apply String.eqb_eq in Ek. subst k. rewrite andb_true_r.
      now destruct (String.eqb key other).
    + rewrite IH. destruct (String.eqb key other) eqn:Eo; simpl; [|reflexivity].
      apply String.eqb_eq in Eo. subst other. now rewrite Ek.
Qed.

Lemma keys_insertIndex (i : N) (key : string) (v : A) (obj : list (string * A)) :
  Permutation (map fst (insertIndex i key v obj)) (key :: map fst obj).
Proof.
  induction obj as [|[k old] obj IH]; simpl; [reflexivity|].
  destruct (arrayIndex k) as [j|]; [destruct (j <? i)%N|]; simpl; try reflexivity.
  rewrite IH. apply perm_swap.
Qed.

Lemma lookup_insertIndex (i : N) (key other : string) (v : A) (obj : list (string * A)) :
  hasKey key obj = false ->
  lookup other (insertIndex i key v obj)
  = if String.eqb key other then Some v else lookup other obj.
Proof.
  unfold hasKey. induction obj as [|[k old] obj IH]; simpl; intro H; [reflexivity|].
  apply orb_false_iff in H. destruct H as [Hk H].
  destruct (arrayIndex k) as [j|]; [destruct (j <? i)%N|]; simpl; try reflexivity.
  rewrite (IH H).
  destruct (String.eqb key other) eqn:Eo; [|reflexivity].
  apply String.eqb_eq in Eo. subst other. now rewrite Hk.
Qed.

Lemma lookup_append (key other : string) (v : A) (obj : list (string * A)) :
  hasKey key obj = false ->
  lookup other (obj ++ [(key, v)])
  = if String.eqb key other then Some v else lookup other obj.
Proof.
  unfold hasKey. induction obj as [|[k old] obj IH]; simpl; intro H; [reflexivity|].
  apply orb_false_iff in H. destruct H as [Hk H]. rewrite (IH H).
  destruct (String.eqb key other) eqn:Eo; [|reflexivity].
  apply String.eqb_eq in Eo. subst other. now rewrite Hk.
Qed.

(** The keys of an object after an assignment: the same keys when the key
    was there or is [__proto__], one more key otherwise. *)
Lemma keys_assign (key : string) (v : A) (obj : list (string * A)) :
  Permutation (map fst (assign key v obj))
    (if String.eqb key "__proto__" || hasKey key obj
     then map fst obj else key :: map fst obj).
Proof.
  unfold assign. destruct (String.eqb key "__proto__"); simpl; [reflexivity|].
  destruct (hasKey key obj); [now rewrite keys_replaceValue|].
  destruct (arrayIndex key); [apply keys_insertIndex|].
  rewrite map_app. simpl. symmetry. apply Permutation_cons_append.
Qed.

(** The value read at any key after an assignment. *)
Lemma lookup_assign (key other : string) (v : A) (obj : list (string * A)) :
  lookup other (assign key v obj)
  = if String.eqb key "__proto__" then lookup other obj
    else if String.eqb key other then Some v else lookup other obj.
Proof.
  unfold assign. destruct (String.eqb key "__proto__"); [reflexivity|].
  destruct (hasKey key obj) eqn:Hk.
  - rewrite lookup_replaceValue, Hk, andb_true_r. reflexivity.
  - destruct (arrayIndex key); [now apply lookup_insertIndex | now apply lookup_append].
Qed.

End CatalogUpdates.

Section AddOperations.
Import AIAgent.

(** [addTableMetadata] as an update of a map. Unless the name is
    [__proto__], which adds nothing, the table is then found with the
    metadata given, replacing any earlier metadata under that name; every
    other table keeps its metadata; names stay unique; and the number of
    tables grows by one exactly when the name is new. The example catalog
    is not touched. *)
Theorem addTableMetadata_updates_map
        (tableName : string) (metadata : TableMetadata.t) (m : Machine) :
  let before := tableMetadata m in
  let after := tableMetadata (snd (addTableMetadata tableName metadata m)) in
  (tableName = "__proto__" -> after = before)
  /\ (tableName <> "__proto__" -> lookup tableName after = Some metadata)
  /\ (forall other, other <> tableName -> lookup other after = lookup other before)
  /\ (NoDup (map fst before) -> NoDup (map fst after))
  /\ List.length after
     = List.length before
       + (if String.eqb tableName "__proto__" || TableSelector.hasKey tableName before
          then 0 else 1)
  /\ exampleQueries (snd (addTableMetadata tableName metadata m)) = exampleQueries m.
Proof.
  cbv zeta. unfold addTableMetadata, TableSelector.addTableMetadata, modify.
  cbn [snd tableMetadata exampleQueries setTableMetadata].
  split; [intros ->; reflexivity|].
  split.
  { intro H. rewrite lookup_assign.
    destruct (String.eqb tableName "__proto__") eqn:E;
      [apply String.eqb_eq in E; contradiction|].
    now rewrite String.eqb_refl. }
  split.
  { intros other H. rewrite lookup_assign.
    destruct (String.eqb tableName "__proto__"); [reflexivity|].
    destruct (String.eqb tableName other) eqn:E; [|reflexivity].
    apply String.eqb_eq in E. congruence. }
  pose proof (keys_assign tableName metadata (tableMetadata m)) as Hkeys.
  split.
  { intro Hnodup.
    apply (Permutation_NoDup (Permutation_sym Hkeys)).
    destruct (String.eqb tableName "__proto__") eqn:Ep; simpl; [exact Hnodup|].
    destruct (TableSelector.hasKey tableName (tableMetadata m)) eqn:Hk; [exact Hnodup|].
    constructor; [|exact Hnodup].
    intro Hin. apply in_map_iff in Hin. destruct Hin as [[k v] [Hfst Hin]].
    simpl in Hfst. subst k.
    unfold TableSelector.hasKey in Hk.
    assert (existsb (fun kv : string * TableMetadata.t => String.eqb (fst kv) tableName)
              (tableMetadata m) = true) as Hex.
    { apply existsb_exists. exists (tableName, v). split; [exact Hin|].
      apply String.eqb_refl. }
    congruence. }
  split; [|reflexivity].
  apply Permutation_length in Hkeys. rewrite !length_map in Hkeys || idtac.
  revert Hkeys.
  destruct (String.eqb tableName "__proto__" || TableSelector.hasKey tableName (tableMetadata m));
    simpl; rewrite ?length_map; intro Hkeys; rewrite ?length_map in Hkeys; lia.
Qed.

End AddOperations.

(* ===================================================================== *)
(** * What the prompts show to the model *)
(* ===================================================================== *)

Section PromptContents.
Import ValidationSpec.

Lemma contains_refl (s : string) : Contains s s.
Proof. exists "", "". simpl. now rewrite append_nil_r. Qed.

Lemma contains_trans (a b c : string) : Contains a b -> Contains b c -> Contains a c.
Proof.
  intros [p1 [q1 ->]] [p2 [q2 ->]].
  exists (p2 ++ p1), (q1 ++ q2). now rewrite !append_assoc.
Qed.

Lemma contains_left (a b c : string) : Contains a b -> Contains a (b ++ c).
Proof.
  intros [p [q ->]]. exists p, (q ++ c). now rewrite !append_assoc.
Qed.

Lemma contains_right (a b c : string) : Contains a c -> Contains a (b ++ c).
Proof.
  intros [p [q ->]]. exists (b ++ p), q. now rewrite !append_assoc.
Qed.

(** An element of a list is part of its join. *)
Lemma contains_concat (sep s : string) (l : list string) :
  In s l -> Contains s (String.concat sep l).
Proof.
  induction l as [|x l IH]; intro H; [destruct H|].
  destruct H as [-> | H].
  - destruct l; simpl; [apply contains_refl | apply contains_left, contains_refl].
  - destruct l as [|y l]; [destruct H|].
    change (String.concat sep (x :: y :: l)) with (x ++ sep ++ String.concat sep (y :: l)).
    now apply contains_right, contains_right, IH.
Qed.

Lemma contains_in_line (s line : string) (ls : list string) :
  In line ls -> Contains s line -> Contains s (lines ls).
Proof.
  intros Hin Hs. apply (contains_trans _ line); [exact Hs|].
  now apply contains_concat.
Qed.

Lemma nth_error_mapi {A B} (f : nat -> A -> B) (start i : nat) (xs : list A) :
  nth_error (QuerySelector.mapi f start xs) i
  = option_map (f (start + i)) (nth_error xs i).
Proof.
  revert start i. induction xs as [|x xs IH]; intros start i.
  - now destruct i.
  - destruct i as [|i]; simpl.
    + now rewrite Nat.add_0_r.
    + rewrite IH. now rewrite Nat.add_succ_r.
Qed.

Lemma exampleText_lines (index : nat) (example : ExampleQuery.t) :
  Contains (exampleLines (index + 1) example) (QuerySelector.exampleText index example).
Proof.
  exists nl, "". unfold QuerySelector.exampleText, exampleLines, lines.
  cbn [String.concat]. rewrite !append_assoc. reflexivity.
Qed.

(** The prompt of the query selector shows the request and the examples:
    the example at position [i] (from 0) under the number [i + 1]. *)
Lemma QuerySelector_prompt_contents (examples : list ExampleQuery.t) (userPrompt : string) :
  Contains ("User Request: " ++ dq ++ userPrompt ++ dq)
    (QuerySelector.prompt examples userPrompt)
  /\ forall i example,
       nth_error examples i = Some example ->
       Contains (exampleLines (i + 1) example) (QuerySelector.prompt examples userPrompt).
Proof.
  split.
  - unfold QuerySelector.prompt.
    eapply contains_in_line; [|apply contains_refl]. simpl. tauto.
  - intros i example Hnth.
    unfold QuerySelector.prompt.
    eapply contains_in_line with (line := QuerySelector.exampleQueriesText examples);
      [simpl; tauto|].
    apply (contains_trans _ (QuerySelector.exampleText i example));
      [apply exampleText_lines|].
    apply contains_concat.
    apply (nth_error_In _ i). rewrite nth_error_mapi, Hnth. reflexivity.
Qed.

Lemma tableText_lines (tableName : string) (metadata : TableMetadata.t) :
  Contains (tableLines tableName metadata) (TableSelector.tableText (tableName, metadata))
  /\ forall col,
       In col (TableMetadata.columns metadata) ->
       Contains (columnLine col) (TableSelector.tableText (tableName, metadata)).
Proof.
  split.
  - exists nl, (String.concat nl (map TableSelector.columnText (TableMetadata.columns metadata))
                ++ nl ++ "").
    unfold TableSelector.tableText, tableLines, lines.
    cbn [String.concat]. rewrite !append_assoc. reflexivity.
  - intros col Hin. unfold TableSelector.tableText.
    eapply contains_in_line
      with (line := String.concat nl
                      (map TableSelector.columnText (TableMetadata.columns metadata)));
      [simpl; tauto|].
    apply contains_concat. apply in_map_iff. now exists col.
Qed.

(** The prompt of the table selector shows the request, and every table
    with its description and each of its columns. *)
Lemma TableSelector_prompt_contents (catalog : Catalog) (userPrompt : string) :
  Contains ("User Request: " ++ dq ++ userPrompt ++ dq)
    (TableSelector.prompt catalog userPrompt)
  /\ forall tableName metadata,
       In (tableName, metadata) catalog ->
       Contains (tableLines tableName metadata) (TableSelector.prompt catalog userPrompt)
       /\ forall col,
            In col (TableMetadata.columns metadata) ->
            Contains (columnLine col) (TableSelector.prompt catalog userPrompt).
Proof.
  split.
  - unfold TableSelector.prompt.
    eapply contains_in_line; [|apply contains_refl]. simpl. tauto.
  - intros tableName metadata Hin.
    assert (Htext : Contains (TableSelector.tableText (tableName, metadata))
                      (TableSelector.prompt catalog userPrompt)).
    { unfold TableSelector.prompt.
      eapply contains_in_line with (line := TableSelector.metadataText catalog);
        [simpl; tauto|].
      apply contains_concat. apply in_map_iff. now exists (tableName, metadata). }
    destruct (tableText_lines tableName metadata) as [Ht Hc].
    split.
    + exact (contains_trans _ _ _ Ht Htext).
    + intros col Hcol. exact (contains_trans _ _ _ (Hc col Hcol) Htext).
Qed.


End PromptContents.

Section SelectorsAndCatalogs.
Context {host : Host}.
Import ValidationSpec.

(** On a catalog that holds an example at position [i] (from 0), the
    query selector sends the model exactly one prompt, which quotes the
    request and presents that example under the number [i + 1] with its
    description and its SQL text. *)
Theorem selectBestQuery_shows_examples
        (userPrompt : string) (m : Machine) (i : nat) (example : ExampleQuery.t) :
  nth_error (exampleQueries m) i = Some example ->
  exists prompt,
    requests (snd (QuerySelector.selectBestQuery userPrompt m))
    = (requests m ++ [prompt])%list
    /\ Contains ("User Request: " ++ dq ++ userPrompt ++ dq) prompt
    /\ Contains (exampleLines (i + 1) example) prompt.
Proof.
  intro Hnth. rewrite selectBestQuery_at. unfold afterQuerySelection.
  destruct (exampleQueries m) as [|q qs] eqn:E; [now destruct i|].
  rewrite <- E in *. eexists. split; [reflexivity|].
  destruct (QuerySelector_prompt_contents (exampleQueries m) userPrompt) as [Hreq Hex].
  split; [exact Hreq | now apply Hex].
Qed.

(** After [addExampleQuery], the next query selection consults the model
    with one prompt that presents the new example last, numbered one more
    than the size of the catalog before, and every earlier example under
    the number it had. *)
Theorem added_example_is_shown
        (query description userPrompt : string) (m : Machine) :
  let m' := snd (AIAgent.addExampleQuery query description m) in
  exists prompt,
    requests (snd (QuerySelector.selectBestQuery userPrompt m'))
    = (requests m ++ [prompt])%list
    /\ Contains
         (exampleLines (List.length (exampleQueries m) + 1)
            (ExampleQuery.make query description))
         prompt
    /\ forall i example,
         nth_error (exampleQueries m) i = Some example ->
         Contains (exampleLines (i + 1) example) prompt.
Proof.
  intro m'. rewrite selectBestQuery_at. unfold afterQuerySelection.
  assert (Hm' : exampleQueries m'
                = (exampleQueries m ++ [ExampleQuery.make query description])%list)
    by reflexivity.
  destruct (exampleQueries m') as [|q qs] eqn:E.
  { symmetry in Hm'. apply app_eq_nil in Hm'. destruct Hm'. discriminate. }
  rewrite <- E in *. eexists. split; [reflexivity|].
  destruct (QuerySelector_prompt_contents (exampleQueries m') userPrompt) as [_ Hex].
  split.
  - apply Hex. rewrite Hm', nth_error_app2, Nat.sub_diag by lia. reflexivity.
  - intros i example Hnth. apply Hex.
    rewrite Hm', nth_error_app1; [exact Hnth|].
    apply nth_error_Some. congruence.
Qed.



(** On an empty catalog a selector answers at once: the machine is left
    with no new request, whatever the prompt, and the answer holds
    [selectedQuery: null] and [confidence: 0] for the query selector, an
    empty array and an empty object for the table selector. *)
Theorem empty_catalog_costs_no_request
        (userPrompt : string) (queries : list ExampleQuery.t) (tables : Catalog)
        (history : list string) (reads : nat) (entered : list Operation) :
  (let run := QuerySelector.selectBestQuery userPrompt
                (mkMachine [] tables history reads entered) in
   requests (snd run) = history
   /\ exists r, fst run = Return r
                /\ QuerySelector.selectedQuery r = VNull
                /\ QuerySelector.confidence r = VNum 0%float)
  /\ (let run := TableSelector.selectTablesAndColumns userPrompt
                   (mkMachine queries [] history reads entered) in
      requests (snd run) = history
      /\ exists r, fst run = Return r
                   /\ TableSelector.selectedTables r = VArr []
                   /\ TableSelector.selectedColumns r = VObj []).
Proof.
  split; cbv zeta.
  - rewrite selectBestQuery_at. split; [reflexivity|]. now eexists.
  - rewrite selectTablesAndColumns_at. split; [reflexivity|]. now eexists.
Qed.

End SelectorsAndCatalogs.

(* ===================================================================== *)
(** * Trimming removes only blank bytes *)
(* ===================================================================== *)

Section Trimming.

Lemma allBlank_append (a b : string) : allBlank (a ++ b) = allBlank a && allBlank b.
Proof. induction a as [|c a IH]; simpl; [reflexivity | now rewrite IH, andb_assoc]. Qed.

Lemma allBlank_rev (s : string) : allBlank (rev s) = allBlank s.
Proof.
  induction s as [|c s IH]; [reflexivity|].
  rewrite rev_cons, allBlank_append, IH. simpl.
  now rewrite andb_true_r, andb_comm.
Qed.

Lemma rev_empty (s : string) : rev s = "" -> s = "".
Proof. intro H. rewrite <- (rev_involutive s), H. reflexivity. Qed.

Ltac bool_to_prop :=
  repeat match goal with
         | H : _ && _ = true |- _ => apply andb_true_iff in H; destruct H
         | H : _ || _ = true |- _ => apply orb_true_iff in H
         | H : (_ =? _)%nat = true |- _ => apply Nat.eqb_eq in H
         | H : (_ <=? _)%nat = true |- _ => apply Nat.leb_le in H
         end.

Lemma ws1_blank (a : ascii) : ws1 (nat_of_ascii a) = true -> blankByte a = true.
Proof. unfold blankByte. now intros ->. Qed.

Lemma high_blank (a : ascii) : 128 <= nat_of_ascii a -> blankByte a = true.
Proof.
  intro H. unfold blankByte. apply orb_true_iff. right. now apply Nat.leb_le.
Qed.

Lemma ws2_blank (a b : ascii) :
  ws2 (nat_of_ascii a) (nat_of_ascii b) = true ->
  blankByte a = true /\ blankByte b = true.
Proof.
  unfold ws2. intro H. bool_to_prop. split; apply high_blank; lia.
Qed.

Lemma ws3_blank (a b c : ascii) :
  ws3 (nat_of_ascii a) (nat_of_ascii b) (nat_of_ascii c) = true ->
  blankByte a = true /\ blankByte b = true /\ blankByte c = true.
Proof.
  unfold ws3. intro H.
  assert (128 <= nat_of_ascii a /\ 128 <= nat_of_ascii b /\ 128 <= nat_of_ascii c)
    as [Ha [Hb Hc]].
  { bool_to_prop.
    repeat match goal with
           | H : _ \/ _ |- _ => destruct H; bool_to_prop
           end; lia. }
  repeat split; now apply high_blank.
Qed.

(** [trimStart] removes a prefix of blank bytes. *)
Lemma trimStart_prefix (n : nat) (s : string) :
  String.length s <= n ->
  exists w, s = w ++ trimStart s /\ allBlank w = true.
Proof.
  revert s. induction n as [|n IH]; intros s Hlen.
  - destruct s; [now exists "" | simpl in Hlen; lia].
  - destruct s as [|a s1]; [now exists ""|].
    cbn [trimStart].
    destruct (ws1 (nat_of_ascii a)) eqn:H1.
    { destruct (IH s1) as [w [Hw Hb]]; [simpl in Hlen; lia|].
      exists (String a w). simpl. rewrite Hb, (ws1_blank a H1). now rewrite <- Hw. }
    destruct s1 as [|b s2]; [now exists ""|].
    destruct (ws2 (nat_of_ascii a) (nat_of_ascii b)) eqn:H2.
    { destruct (IH s2) as [w [Hw Hb]]; [simpl in Hlen; lia|].
      destruct (ws2_blank a b H2) as [Ha Hbb].
      exists (String a (String b w)). simpl. rewrite Ha, Hbb, Hb. now rewrite <- Hw. }
    destruct s2 as [|c s3]; [now exists ""|].
    destruct (ws3 (nat_of_ascii a) (nat_of_ascii b) (nat_of_ascii c)) eqn:H3;
      [|now exists ""].
    destruct (IH s3) as [w [Hw Hb]]; [simpl in Hlen; lia|].
    destruct (ws3_blank a b c H3) as [Ha [Hbb Hc]].
    exists (String a (String b (String c w))). simpl.
    rewrite Ha, Hbb, Hc, Hb. now rewrite <- Hw.
Qed.

(** The same for the reversed text. *)
Lemma trimStartRev_prefix (n : nat) (s : string) :
  String.length s <= n ->
  exists w, s = w ++ trimStartRev s /\ allBlank w = true.
Proof.
  revert s. induction n as [|n IH]; intros s Hlen.
  - destruct s; [now exists "" | simpl in Hlen; lia].
  - destruct s as [|a s1]; [now exists ""|].
    cbn [trimStartRev].
    destruct (ws1 (nat_of_ascii a)) eqn:H1.
    { destruct (IH s1) as [w [Hw Hb]]; [simpl in Hlen; lia|].
      exists (String a w). simpl. rewrite Hb, (ws1_blank a H1). now rewrite <- Hw. }
    destruct s1 as [|b s2]; [now exists ""|].
    destruct (ws2 (nat_of_ascii b) (nat_of_ascii a)) eqn:H2.
    { destruct (IH s2) as [w [Hw Hb]]; [simpl in Hlen; lia|].
      destruct (ws2_blank b a H2) as [Hbb Ha].
      exists (String a (String b w)). simpl. rewrite Ha, Hbb, Hb. now rewrite <- Hw. }
    destruct s2 as [|c s3]; [now exists ""|].
    destruct (ws3 (nat_of_ascii c) (nat_of_ascii b) (nat_of_ascii a)) eqn:H3;
      [|now exists ""].
    destruct (IH s3) as [w [Hw Hb]]; [simpl in Hlen; lia|].
    destruct (ws3_blank c b a H3) as [Hc [Hbb Ha]].
    exists (String a (String b (String c w))). simpl.
    rewrite Ha, Hbb, Hc, Hb. now rewrite <- Hw.
Qed.

(** [trim] removes a prefix and a suffix of blank bytes, and nothing
    else. *)
Lemma trim_shape (s : string) :
  exists before after,
    s = before ++ trim s ++ after
    /\ allBlank before = true /\ allBlank after = true.
Proof.
  destruct (trimStart_prefix (String.length s) s (le_n _)) as [w1 [H1 B1]].
  destruct (trimStartRev_prefix _ (rev (trimStart s)) (le_n _)) as [w2 [H2 B2]].
  exists w1, (rev w2). unfold trim, trimEnd.
  split; [|split; [exact B1 | now rewrite allBlank_rev]].
  rewrite <- rev_append, <- H2, rev_involutive. exact H1.
Qed.

(** A text whose trimmed form is empty is made of blank bytes. *)
Lemma trim_empty_blank (s : string) : trim s = "" -> allBlank s = true.
Proof.
  intro H. destruct (trim_shape s) as [w1 [w2 [Hs [B1 B2]]]].
  rewrite Hs, H, !allBlank_append, B1, B2. reflexivity.
Qed.

(** A blank byte is not a letter, in either case. *)
Lemma blank_not_letter (a b : ascii) :
  blankByte a = true ->
  (65 <=? nat_of_ascii b)%nat && (nat_of_ascii b <=? 90)%nat = true ->
  Ascii.eqb (canonicalize a) (canonicalize b) = false.
Proof.
  intros Ha Hb. apply Ascii.eqb_neq. intro Heq.
  apply (f_equal nat_of_ascii) in Heq. revert Heq.
  unfold canonicalize, blankByte, ws1 in *.
  bool_to_prop.
  assert (Hcb : (97 <=? nat_of_ascii b)%nat && (nat_of_ascii b <=? 122)%nat = false).
  { apply andb_false_iff. left. apply Nat.leb_gt. lia. }
  rewrite Hcb.
  assert (Hca : (97 <=? nat_of_ascii a)%nat && (nat_of_ascii a <=? 122)%nat = false).
  { apply andb_false_iff.
    destruct Ha as [Ha | Ha]; bool_to_prop.
    - left. apply Nat.leb_gt. destruct Ha as [Ha | Ha]; bool_to_prop; lia.
    - right. apply Nat.leb_gt. lia. }
  rewrite Hca.
  destruct Ha as [Ha | Ha]; bool_to_prop; [destruct Ha as [Ha | Ha]; bool_to_prop|]; lia.
Qed.

(** A pattern that starts with a capital letter matches nowhere in a text
    of blank bytes. *)
Lemma regexTestI_blank (b : ascii) (p s : string) :
  (65 <=? nat_of_ascii b)%nat && (nat_of_ascii b <=? 90)%nat = true ->
  allBlank s = true -> regexTestI (String b p) s = false.
Proof.
  intros Hb. induction s as [|a s IH]; intro Hs; [reflexivity|].
  simpl in Hs. apply andb_true_iff in Hs. destruct Hs as [Ha Hs].
  cbn [regexTestI matchesAt]. rewrite (blank_not_letter a b Ha Hb), (IH Hs).
  reflexivity.
Qed.

End Trimming.

(* ===================================================================== *)
(** * The verdicts of the validation *)
(* ===================================================================== *)

Section Verdicts.
Import QueryGenerator ValidationSpec.

(** A query in which SELECT or FROM occurs is not empty once trimmed. *)
Lemma keyword_implies_notEmpty (query : string) :
  hasSelect (checks (validateQuery query)) = true
  \/ hasFrom (checks (validateQuery query)) = true ->
  notEmpty (checks (validateQuery query)) = true.
Proof.
  cbn [validateQuery checks hasSelect hasFrom notEmpty]. intro H.
  destruct (trim query) eqn:Htrim; [|reflexivity].
  apply trim_empty_blank in Htrim.
  destruct H as [H | H];
    rewrite regexTestI_blank in H by (reflexivity || exact Htrim); discriminate.
Qed.

(** The verdict of [validateQuery] on any text. The emptiness check never
    decides: a query is valid exactly when SELECT and FROM occur in it and
    its semicolons, if any, include one at the end. A valid query gets no
    suggestion; a query that is empty once trimmed gets the three messages
    together; and a query is rejected without any suggestion exactly when
    SELECT and FROM occur in it and it holds a semicolon but does not end
    with one. *)
Theorem validateQuery_verdicts (query : string) :
  let v := validateQuery query in
  (isValid v = true <->
   ContainsIgnoringCase "SELECT" query /\ ContainsIgnoringCase "FROM" query
   /\ (EndsWith ";" (trim query) \/ ~ Contains ";" query))
  /\ (isValid v = true -> suggestions v = [])
  /\ (trim query = "" ->
      isValid v = false
      /\ suggestions v = [selectMissing; fromMissing; emptyQuery])
  /\ (isValid v = false /\ suggestions v = [] <->
      ContainsIgnoringCase "SELECT" query /\ ContainsIgnoringCase "FROM" query
      /\ Contains ";" query /\ ~ EndsWith ";" (trim query)).
Proof.
  intro v.
  pose proof (keyword_implies_notEmpty query) as Hkey.
  assert (Hs : hasSelect (checks v) = true <-> ContainsIgnoringCase "SELECT" query)
    by apply regexTestI_iff.
  assert (Hf : hasFrom (checks v) = true <-> ContainsIgnoringCase "FROM" query)
    by apply regexTestI_iff.
  assert (Hn : notEmpty (checks v) = true <-> trim query <> "")
    by apply isEmpty_false_iff.
  assert (Hv : isValid v
               = hasSelect (checks v) && hasFrom (checks v)
                 && properSyntax (checks v) && notEmpty (checks v)).
  { subst v. cbn [validateQuery checks isValid hasSelect hasFrom properSyntax
                  notEmpty values forallb].
    now rewrite andb_true_r, !andb_assoc. }
  assert (Hsemi : properSyntax (checks v) = false <->
                  Contains ";" query /\ ~ EndsWith ";" (trim query)).
  { subst v. cbn [validateQuery checks properSyntax].
    rewrite orb_false_iff, negb_false_iff, includes_iff, <- endsWith_iff.
    split; intros [H1 H2]; split; trivial.
    - now rewrite H1.
    - now destruct (endsWith (trim query) ";"); [destruct H2|]. }
  assert (Hp : properSyntax (checks v) = true <->
               EndsWith ";" (trim query) \/ ~ Contains ";" query).
  { subst v. cbn [validateQuery checks properSyntax].
    rewrite orb_true_iff, endsWith_iff, negb_true_iff, <- includes_iff.
    split; (intros [H | H]; [now left | right]).
    - congruence.
    - now destruct (includes query ";"). }
  assert (Hsug : suggestions v = generateSuggestions (checks v)) by reflexivity.
  fold v in Hkey. clearbody v.
  rewrite Hsug, Hv. unfold generateSuggestions.
  rewrite <- Hs, <- Hf.
  split; [|split; [|split]].
  - rewrite <- Hp.
    destruct (hasSelect (checks v)) eqn:E1, (hasFrom (checks v)) eqn:E2,
             (properSyntax (checks v)) eqn:E3;
      try (rewrite Hkey by auto); simpl; intuition congruence.
  - destruct (hasSelect (checks v)), (hasFrom (checks v)), (properSyntax (checks v)),
             (notEmpty (checks v)); simpl; congruence.
  - intro Hempty.
    assert (Hne : notEmpty (checks v) = false).
    { destruct (notEmpty (checks v)); [|reflexivity].
      exfalso. exact (proj1 Hn eq_refl Hempty). }
    destruct (hasSelect (checks v)) eqn:E1; [rewrite Hkey in Hne by auto; discriminate|].
    destruct (hasFrom (checks v)) eqn:E2; [rewrite Hkey in Hne by auto; discriminate|].
    rewrite Hne. simpl. split; reflexivity.
  - rewrite <- Hsemi.
    destruct (hasSelect (checks v)) eqn:E1, (hasFrom (checks v)) eqn:E2,
             (properSyntax (checks v)) eqn:E3;
      try (rewrite Hkey by auto); simpl;
      try (destruct (notEmpty (checks v))); simpl; intuition congruence.
Qed.

End Verdicts.

(* ===================================================================== *)
(** * The text of the selected tables *)
(* ===================================================================== *)

Section TablesInfo.
Context {host : Host}.

Lemma ownProp_columnsObject_lookup (columns : list (string * list string)) (table : string) :
  ownProp (map (fun kv => (fst kv, VArr (map VStr (snd kv)))) columns) table
  = option_map (fun names => VArr (map VStr names)) (lookup table columns).
Proof.
  induction columns as [|[k names] columns IH]; simpl; [reflexivity|].
  destruct (String.eqb k table); [reflexivity | exact IH].
Qed.

(** For an array of table names and an object of column-name arrays, the
    query generator presents each table, in the order given, with its
    columns separated by commas, the tables separated by an empty line. A
    table for which no columns were selected is presented with an empty
    list of columns, provided its name is not one the prototype of objects
    defines. *)
Theorem tablesInfo_on_requested_shape
        (tables : list string) (columns : list (string * list string)) :
  (forall table, In table tables -> lookup table columns = None ->
                 inheritedGet (columnsObject columns) table = Own VUndefined) ->
  QueryGenerator.tablesInfo (VArr (map VStr tables)) (columnsObject columns)
  = Return (String.concat (nl ++ nl) (map (selectedTableLines columns) tables)).
Proof.
  intro Hmissing. unfold QueryGenerator.tablesInfo, callMap.
  assert (H : mapC (QueryGenerator.tableInfo (columnsObject columns)) (map VStr tables)
              = Return (map (selectedTableLines columns) tables)).
  { induction tables as [|t tables IH]; [reflexivity|].
    cbn [map mapC].
    rewrite IH by (intros t' Hin; apply Hmissing; now right).
    assert (Ht : QueryGenerator.tableInfo (columnsObject columns) (VStr t)
                 = Return (selectedTableLines columns t)).
    { unfold QueryGenerator.tableInfo, columnsObject, getComputed, selectedTableLines.
      cbn [ToString bindC]. rewrite ownProp_columnsObject_lookup.
      destruct (lookup t columns) as [names|] eqn:E; cbn [option_map].
      - cbn [bindC orElse truthy callJoin]. rewrite Array_join_strings. reflexivity.
      - fold (columnsObject columns).
        rewrite (Hmissing t (or_introl eq_refl) E). reflexivity. }
    rewrite Ht. reflexivity. }
  rewrite H. reflexivity.
Qed.

End TablesInfo.

(* ===================================================================== *)
(** * Replies that are JSON but not objects *)
(* ===================================================================== *)

Section OddReplies.
Context {host : Host}.

(** When the reply of the model parses as JSON that is not an object, the
    table selector does not notice: for a boolean, a number, a string or
    an array it reports [success: true] with [selectedTables] and
    [selectedColumns] undefined; for [null] it reports [success: false],
    with the fault of the engine as error and the fallback values. *)
Theorem selectTablesAndColumns_on_reply_not_an_object
        (userPrompt response : string) (v : jsval) (m : Machine) :
  tableMetadata m <> [] ->
  ollama_chat (List.length (requests m))
    (TableSelector.prompt (tableMetadata m) userPrompt) = inl response ->
  JSON_parse response = inl v ->
  exists r,
    fst (TableSelector.selectTablesAndColumns userPrompt m) = Return r
    /\ (isScalarOrArray v = true ->
        TableSelector.success r = Some true
        /\ TableSelector.selectedTables r = VUndefined
        /\ TableSelector.selectedColumns r = VUndefined
        /\ TableSelector.confidence r = Some VUndefined)
    /\ (v = VNull ->
        TableSelector.success r = Some false
        /\ TableSelector.error r
           = Some (faultMessage (ReadOfNullish VNull (VStr "selectedTables")))
        /\ TableSelector.selectedTables r = VArr []
        /\ TableSelector.selectedColumns r = VObj []).
Proof.
  intros Hcatalog Hchat Hparse.
  rewrite selectTablesAndColumns_run by assumption. rewrite Hchat.
  unfold tableSelectionOf, JSONparse. rewrite Hparse.
  eexists. split; [reflexivity|].
  split.
  - intro Hv. destruct v; try discriminate; repeat split.
  - intros ->. repeat split.
Qed.

(** The same for the query selector. *)
Theorem selectBestQuery_on_reply_not_an_object
        (userPrompt response : string) (v : jsval) (m : Machine) :
  exampleQueries m <> [] ->
  ollama_chat (List.length (requests m))
    (QuerySelector.prompt (exampleQueries m) userPrompt) = inl response ->
  JSON_parse response = inl v ->
  exists r,
    fst (QuerySelector.selectBestQuery userPrompt m) = Return r
    /\ (isScalarOrArray v = true ->
        QuerySelector.success r = Some true
        /\ QuerySelector.selectedQuery r = VUndefined
        /\ QuerySelector.confidence r = VUndefined
        /\ QuerySelector.reasoning r = VUndefined)
    /\ (v = VNull ->
        QuerySelector.success r = Some false
        /\ QuerySelector.error r
           = Some (faultMessage (ReadOfNullish VNull (VStr "selectedQuery")))
        /\ QuerySelector.selectedQuery r = VNull
        /\ QuerySelector.confidence r = VNum 0%float).
Proof.
  intros Hcatalog Hchat Hparse.
  rewrite selectBestQuery_run by assumption. rewrite Hchat.
  unfold querySelectionOf, JSONparse. rewrite Hparse.
  eexists. split; [reflexivity|].
  split.
  - intro Hv. destruct v; try discriminate; repeat split.
  - intros ->. repeat split.
Qed.

End OddReplies.

(* ===================================================================== *)
(** * Trimming twice, and validating a trimmed text *)
(* ===================================================================== *)

Section TrimTwice.

Lemma trimStart_fixed (s : string) : leadingWs s = false -> trimStart s = s.
Proof.
  destruct s as [|a [|b [|c s]]]; cbn [leadingWs trimStart]; intro H;
    repeat match goal with
           | |- context [if ?x then _ else _] =>
               destruct x; cbn [orb] in H; try discriminate
           end;
    reflexivity.
Qed.

Lemma trimStartRev_fixed (s : string) : leadingWsRev s = false -> trimStartRev s = s.
Proof.
  destruct s as [|a [|b [|c s]]]; cbn [leadingWsRev trimStartRev]; intro H;
    repeat match goal with
           | |- context [if ?x then _ else _] =>
               destruct x; cbn [orb] in H; try discriminate
           end;
    reflexivity.
Qed.

Lemma trimStart_not_leading (n : nat) (s : string) :
  String.length s <= n -> leadingWs (trimStart s) = false.
Proof.
  revert s. induction n as [|n IH]; intros s Hlen.
  - destruct s; [reflexivity | simpl in Hlen; lia].
  - destruct s as [|a s1]; [reflexivity|].
    cbn [trimStart].
    destruct (ws1 (nat_of_ascii a)) eqn:H1; [apply IH; simpl in Hlen; lia|].
    destruct s1 as [|b s2]; [cbn; now rewrite H1|].
    destruct (ws2 (nat_of_ascii a) (nat_of_ascii b)) eqn:H2;
      [apply IH; simpl in Hlen; lia|].
    destruct s2 as [|c s3]; [cbn; now rewrite H1, H2|].
    destruct (ws3 (nat_of_ascii a) (nat_of_ascii b) (nat_of_ascii c)) eqn:H3;
      [apply IH; simpl in Hlen; lia|].
    cbn. now rewrite H1, H2, H3.
Qed.

Lemma trimStartRev_not_leading (n : nat) (s : string) :
  String.length s <= n -> leadingWsRev (trimStartRev s) = false.
Proof.
  revert s. induction n as [|n IH]; intros s Hlen.
  - destruct s; [reflexivity | simpl in Hlen; lia].
  - destruct s as [|a s1]; [reflexivity|].
    cbn [trimStartRev].
    destruct (ws1 (nat_of_ascii a)) eqn:H1; [apply IH; simpl in Hlen; lia|].
    destruct s1 as [|b s2]; [cbn; now rewrite H1|].
    destruct (ws2 (nat_of_ascii b) (nat_of_ascii a)) eqn:H2;
      [apply IH; simpl in Hlen; lia|].
    destruct s2 as [|c s3]; [cbn; now rewrite H1, H2|].
    destruct (ws3 (nat_of_ascii c) (nat_of_ascii b) (nat_of_ascii a)) eqn:H3;
      [apply IH; simpl in Hlen; lia|].
    cbn. now rewrite H1, H2, H3.
Qed.

(** White space at the start of a text is at the start of any text it
    begins. *)
Lemma leadingWs_prefix (t w : string) : leadingWs t = true -> leadingWs (t ++ w) = true.
Proof.
  destruct t as [|a [|b [|c t]]]; cbn [leadingWs append]; intro H.
  - discriminate.
  - rewrite orb_false_r in H. now rewrite H.
  - rewrite orb_false_r in H.
    apply orb_true_iff in H. destruct H as [-> | ->]; [reflexivity|].
    now rewrite orb_true_r.
  - exact H.
Qed.

(** Trimming a trimmed text changes nothing. *)
Lemma trim_idempotent (s : string) : trim (trim s) = trim s.
Proof.
  set (u := trimStart s).
  assert (Hu : leadingWs u = false) by (apply (trimStart_not_leading _ s (le_n _))).
  destruct (trimStartRev_prefix _ (rev u) (le_n _)) as [w [Hw _]].
  assert (Hprefix : u = trim s ++ rev w).
  { unfold trim, trimEnd. fold u.
    rewrite <- rev_append, <- Hw. now rewrite rev_involutive. }
  assert (Ht : leadingWs (trim s) = false).
  { destruct (leadingWs (trim s)) eqn:E; [|reflexivity].
    apply (leadingWs_prefix _ (rev w)) in E. rewrite <- Hprefix in E. congruence. }
  unfold trim at 1. rewrite (trimStart_fixed _ Ht).
  unfold trimEnd, trim at 1, trimEnd. fold u.
  rewrite rev_involutive.
  rewrite (trimStartRev_fixed (trimStartRev (rev u)))
    by apply (trimStartRev_not_leading _ _ (le_n _)).
  reflexivity.
Qed.

Lemma matchesAt_blank_suffix (p t w : string) :
  capitals p = true -> allBlank w = true -> p <> "" ->
  matchesAt (t ++ w) p = matchesAt t p.
Proof.
  revert t. induction p as [|b p IH]; intros t Hp Hw Hne; [congruence|].
  cbn [capitals] in Hp. apply andb_true_iff in Hp. destruct Hp as [Hb Hp].
  destruct t as [|a t]; cbn [append matchesAt].
  - destruct w as [|a w]; [reflexivity|].
    cbn [matchesAt]. simpl in Hw. apply andb_true_iff in Hw. destruct Hw as [Ha _].
    now rewrite (blank_not_letter a b Ha Hb).
  - destruct p as [|b' p'].
    + destruct (t ++ w), t; reflexivity.
    + rewrite IH by (assumption || discriminate). reflexivity.
Qed.

Lemma regexTestI_blank_suffix (p t w : string) :
  capitals p = true -> allBlank w = true -> p <> "" ->
  regexTestI p (t ++ w) = regexTestI p t.
Proof.
  intros Hp Hw Hne. induction t as [|a t IH].
  - cbn [append]. destruct p as [|b p]; [congruence|].
    cbn [capitals] in Hp. apply andb_true_iff in Hp. destruct Hp as [Hb _].
    rewrite regexTestI_blank by assumption. reflexivity.
  - change (String a t ++ w) with (String a (t ++ w)).
    cbn [regexTestI]. rewrite IH.
    change (String a (t ++ w)) with (String a t ++ w).
    now rewrite matchesAt_blank_suffix.
Qed.

Lemma regexTestI_blank_prefix (b : ascii) (p w t : string) :
  (65 <=? nat_of_ascii b)%nat && (nat_of_ascii b <=? 90)%nat = true ->
  allBlank w = true ->
  regexTestI (String b p) (w ++ t) = regexTestI (String b p) t.
Proof.
  intros Hb. induction w as [|a w IH]; intro Hw; [reflexivity|].
  simpl in Hw. apply andb_true_iff in Hw. destruct Hw as [Ha Hw].
  change (String a w ++ t) with (String a (w ++ t)).
  cbn [regexTestI matchesAt]. rewrite (blank_not_letter a b Ha Hb), (IH Hw).
  reflexivity.
Qed.

Lemma startsWith_blank_suffix (p t w : string) :
  noBlank p = true -> allBlank w = true -> p <> "" ->
  startsWith (t ++ w) p = startsWith t p.
Proof.
  revert t. induction p as [|b p IH]; intros t Hp Hw Hne; [congruence|].
  cbn [noBlank] in Hp. apply andb_true_iff in Hp. destruct Hp as [Hb Hp].
  destruct t as [|a t]; cbn [append startsWith].
  - destruct w as [|a w]; [reflexivity|].
    cbn [startsWith]. simpl in Hw. apply andb_true_iff in Hw. destruct Hw as [Ha _].
    destruct (Ascii.eqb a b) eqn:E; [|reflexivity].
    apply Ascii.eqb_eq in E. subst. rewrite Ha in Hb. discriminate.
  - destruct p as [|b' p'].
    + destruct (t ++ w), t; reflexivity.
    + rewrite IH by (assumption || discriminate). reflexivity.
Qed.

Lemma includes_blank_suffix (p t w : string) :
  noBlank p = true -> allBlank w = true -> p <> "" ->
  includes (t ++ w) p = includes t p.
Proof.
  intros Hp Hw Hne. induction t as [|a t IH].
  - cbn [append]. destruct p as [|b p]; [congruence|].
    cbn [noBlank] in Hp. apply andb_true_iff in Hp. destruct Hp as [Hb _].
    clear Hne. induction w as [|a w IHw]; [reflexivity|].
    simpl in Hw. apply andb_true_iff in Hw. destruct Hw as [Ha Hw].
    cbn [includes startsWith].
    destruct (Ascii.eqb a b) eqn:E.
    { apply Ascii.eqb_eq in E. subst. rewrite Ha in Hb. discriminate. }
    rewrite (IHw Hw). reflexivity.
  - change (String a t ++ w) with (String a (t ++ w)).
    cbn [includes]. rewrite IH.
    change (String a (t ++ w)) with (String a t ++ w).
    now rewrite startsWith_blank_suffix.
Qed.

Lemma includes_blank_prefix (b : ascii) (p w t : string) :
  blankByte b = false -> allBlank w = true ->
  includes (w ++ t) (String b p) = includes t (String b p).
Proof.
  intros Hb. induction w as [|a w IH]; intro Hw; [reflexivity|].
  simpl in Hw. apply andb_true_iff in Hw. destruct Hw as [Ha Hw].
  change (String a w ++ t) with (String a (w ++ t)).
  cbn [includes startsWith].
  destruct (Ascii.eqb a b) eqn:E.
  { apply Ascii.eqb_eq in E. subst. congruence. }
  rewrite (IH Hw). reflexivity.
Qed.

End TrimTwice.

Section TrimmedQueries.
Import QueryGenerator.

(** The validation does not see white space around a query: the checks,
    the verdict and the suggestions for a text are those for the text
    trimmed. *)
Theorem validateQuery_ignores_surrounding_blanks (query : string) :
  validateQuery (trim query) = validateQuery query.
Proof.
  destruct (trim_shape query) as [w1 [w2 [Hq [B1 B2]]]].
  assert (Hselect : regexTestI "SELECT" (trim query) = regexTestI "SELECT" query).
  { rewrite Hq at 2.
    rewrite regexTestI_blank_prefix by (reflexivity || assumption).
    rewrite regexTestI_blank_suffix by (reflexivity || assumption || discriminate).
    reflexivity. }
  assert (Hfrom : regexTestI "FROM" (trim query) = regexTestI "FROM" query).
  { rewrite Hq at 2.
    rewrite regexTestI_blank_prefix by (reflexivity || assumption).
    rewrite regexTestI_blank_suffix by (reflexivity || assumption || discriminate).
    reflexivity. }
  assert (Hsemi : includes (trim query) ";" = includes query ";").
  { rewrite Hq at 2.
    rewrite includes_blank_prefix by (reflexivity || assumption).
    rewrite includes_blank_suffix by (reflexivity || assumption || discriminate).
    reflexivity. }
  unfold validateQuery.
  rewrite trim_idempotent, Hselect, Hfrom, Hsemi. reflexivity.
Qed.

End TrimmedQueries.

Section FinalQuery.
Context {host : Host}.
Import AIAgent.



End FinalQuery.

(* ===================================================================== *)
(** * Further concrete runs *)
(* ===================================================================== *)

Section FurtherRuns.
Import AIAgent ValidationSpec.


(** The sample agent shows its example to the model as example 1. *)
Lemma selectBestQuery_shows_examples_witness :
  exists prompt,
    requests (snd (@QuerySelector.selectBestQuery (Sample.scripted [])
                     "monthly revenue" Sample.agent))
    = [prompt]
    /\ Contains ("User Request: " ++ dq ++ "monthly revenue" ++ dq) prompt
    /\ Contains (exampleLines 1 Sample.monthlyRevenue) prompt.
Proof.
  exact (@selectBestQuery_shows_examples (Sample.scripted []) "monthly revenue"
           Sample.agent 0 Sample.monthlyRevenue eq_refl).
Defined.



(** Two selected tables, columns selected for the first only. *)
Lemma tablesInfo_on_requested_shape_witness :
  @QueryGenerator.tablesInfo (Sample.scripted [])
    (VArr [VStr "orders"; VStr "customers"])
    (columnsObject [("orders", ["order_id"; "order_amount"])])
  = Return ("Table: orders" ++ nl ++ "Columns: order_id, order_amount" ++ nl ++ nl
            ++ "Table: customers" ++ nl ++ "Columns: ").
Proof.
  exact (@tablesInfo_on_requested_shape (Sample.scripted [])
           ["orders"; "customers"] [("orders", ["order_id"; "order_amount"])]
           (fun _ _ _ => eq_refl)).
Defined.

(** The model answers the table selector with the number 42: the step
    reports success with nothing selected. *)
Lemma selectTablesAndColumns_on_reply_not_an_object_witness :
  exists r,
    fst (@TableSelector.selectTablesAndColumns
           (scriptedParsing parseScalars [inl "42"]) "monthly revenue" Sample.agent)
    = Return r
    /\ TableSelector.success r = Some true
    /\ TableSelector.selectedTables r = VUndefined.
Proof.
  destruct (@selectTablesAndColumns_on_reply_not_an_object
              (scriptedParsing parseScalars [inl "42"]) "monthly revenue" "42"
              (VNum 42%float) Sample.agent)
    as [r [Hrun [Hscalar _]]].
  - discriminate.
  - reflexivity.
  - reflexivity.
  - exists r. split; [exact Hrun|].
    destruct (Hscalar eq_refl) as [Hs [Ht _]]. split; assumption.
Defined.

(** The model answers the query selector with [null]: the step reports a
    failure with the fault of the engine. *)
Lemma selectBestQuery_on_reply_not_an_object_witness :
  exists r,
    fst (@QuerySelector.selectBestQuery
           (scriptedParsing parseScalars [inl "null"]) "monthly revenue" Sample.agent)
    = Return r
    /\ QuerySelector.success r = Some false
    /\ QuerySelector.error r
       = Some "Cannot read properties of null (reading 'selectedQuery')".
Proof.
  destruct (@selectBestQuery_on_reply_not_an_object
              (scriptedParsing parseScalars [inl "null"]) "monthly revenue" "null"
              VNull Sample.agent)
    as [r [Hrun [_ Hnull]]].
  - discriminate.
  - reflexivity.
  - reflexivity.
  - exists r. split; [exact Hrun|].
    destruct (Hnull eq_refl) as [Hs [He _]]. split; assumption.
Defined.

(** The model answers the generator with a statement that is no query:
    the run succeeds all the same, and the validation says so. *)
Example success_does_not_mean_valid :
  let host :=
    Sample.scripted [inl "monthly revenue"; inl Sample.selectionReply;
                     inl Sample.tablesReply; inl "DROP TABLE orders; -- done"] in
  exists r,
    fst (@processQuery host "sales per month" Sample.agent) = Return r
    /\ success r = true
    /\ finalQuery r = Some "DROP TABLE orders; -- done"
    /\ option_map QueryGenerator.isValid (validation (steps r)) = Some false
    /\ option_map QueryGenerator.suggestions (validation (steps r))
       = Some [selectMissing; fromMissing].
Proof.
  intro host. eexists. split; [vm_compute; reflexivity|]. repeat split.
Qed.

End FurtherRuns.

(* ===================================================================== *)
(** * The refined text is what the later steps are asked about *)
(* ===================================================================== *)

Section RefinedTextFlows.
Context {host : Host}.
Import AIAgent ValidationSpec.

(** What the prompt of the query generator holds, once built. *)
Lemma generatorPrompt_contents (userPrompt prompt : string)
      (selectedQuery selectedTables selectedColumns : jsval) :
  generatorPrompt userPrompt selectedQuery selectedTables selectedColumns = Return prompt ->
  Contains ("User Request: " ++ dq ++ userPrompt ++ dq) prompt
  /\ (exists info,
        QueryGenerator.tablesInfo selectedTables selectedColumns = Return info
        /\ Contains info prompt)
  /\ (truthy selectedQuery = false ->
      Contains "Reference Query Pattern: No reference query provided" prompt)
  /\ (forall q, selectedQuery = VStr q -> q <> "" ->
      Contains ("Reference Query Pattern: " ++ q) prompt).
Proof.
  unfold generatorPrompt. intro H.
  destruct (QueryGenerator.tablesInfo selectedTables selectedColumns) as [info|e];
    [|discriminate].
  cbn [bindC] in H. unfold QueryGenerator.prompt in H.
  destruct (QueryGenerator.referencePattern selectedQuery) as [pattern|e] eqn:Hpattern;
    [|discriminate].
  cbn [bindC] in H. injection H as <-.
  split; [eapply contains_in_line; [|apply contains_refl]; simpl; tauto|].
  split; [exists info; split; [reflexivity|];
          eapply contains_in_line; [|apply contains_refl]; simpl; tauto|].
  unfold QueryGenerator.referencePattern in Hpattern.
  split.
  - intro Hfalsy. rewrite Hfalsy in Hpattern. injection Hpattern as <-.
    eapply contains_in_line; [|apply contains_refl]. simpl. tauto.
  - intros q -> Hq. cbn [truthy ToString] in Hpattern.
    destruct q; [congruence|]. cbn in Hpattern. injection Hpattern as <-.
    eapply contains_in_line; [|apply contains_refl]. simpl. tauto.
Qed.

(** The query generator sends the model one prompt, unless it faults
    while building it; the prompt quotes the request, lists the selected
    tables as [tablesInfo] prints them, and names the reference query, or
    says that none is provided when the selected query is [null],
    [undefined] or empty. *)
Theorem generateRedshiftQuery_prompt_contents
        (userPrompt prompt : string)
        (selectedQuery selectedTables selectedColumns : jsval) (m : Machine) :
  generatorPrompt userPrompt selectedQuery selectedTables selectedColumns = Return prompt ->
  requests (snd (QueryGenerator.generateRedshiftQuery
                   userPrompt selectedQuery selectedTables selectedColumns m))
  = (requests m ++ [prompt])%list
  /\ Contains ("User Request: " ++ dq ++ userPrompt ++ dq) prompt
  /\ (exists info,
        QueryGenerator.tablesInfo selectedTables selectedColumns = Return info
        /\ Contains info prompt)
  /\ (truthy selectedQuery = false ->
      Contains "Reference Query Pattern: No reference query provided" prompt)
  /\ (forall q, selectedQuery = VStr q -> q <> "" ->
      Contains ("Reference Query Pattern: " ++ q) prompt).
Proof.
  intro H. split.
  - rewrite generateRedshiftQuery_run, H. reflexivity.
  - now apply generatorPrompt_contents.
Qed.

(** In a run whose refinement succeeds, every prompt sent after the first
    quotes the refined text as the request: the steps after the refinement
    are asked about the text the model refined, not about what the user
    typed. *)
Theorem later_prompts_quote_refined_text (userInput refined : string) (m : Machine) :
  ollama_chat (List.length (requests m)) (InputRefinement.prompt userInput)
  = inl refined ->
  exists sent,
    requests (snd (processQuery userInput m))
    = (requests m ++ InputRefinement.prompt userInput :: sent)%list
    /\ Forall (Contains ("User Request: " ++ dq ++ refined ++ dq)) sent.
Proof.
  intro Hrefine.
  assert (Hsel : exists sent,
             requests (afterTableSelection refined
                         (afterQuerySelection refined
                            (afterRefinement userInput (logClockRead m))))
             = (requests m ++ InputRefinement.prompt userInput :: sent)%list
             /\ Forall (Contains ("User Request: " ++ dq ++ refined ++ dq)) sent).
  { unfold afterTableSelection, afterQuerySelection, afterRefinement.
    cbn [exampleQueries tableMetadata logRequest logEnter logClockRead].
    destruct (exampleQueries m) as [|q qs] eqn:Eq;
      cbn [tableMetadata logRequest logEnter logClockRead];
      destruct (tableMetadata m) as [|t ts] eqn:Et;
      cbn [requests logRequest logEnter logClockRead];
      rewrite <- ?app_assoc; cbn [app];
      eexists; (split; [reflexivity|]);
      repeat constructor;
      try (rewrite <- Eq; apply QuerySelector_prompt_contents);
      try (rewrite <- Et; apply TableSelector_prompt_contents). }
  destruct Hsel as [sent [Hsent Hall]].
  destruct (processQuery_outcome userInput m) as [r [m' [Hrun Hout]]].
  rewrite Hrun. cbn [snd].
  destruct Hout as [msg Hfail | refined' Hr m2 qs ts _ | refined' e Hr m2 qs ts _ _
                    | refined' prompt msg Hr m2 m3 qs ts _ Hprompt _
                    | refined' prompt response Hr m2 m3 qs ts _ Hprompt _];
    [congruence | | | |];
    assert (refined' = refined) by congruence; subst refined';
    cbn [requests logClockRead logEnter logRequest].
  - exists sent. subst m2. now rewrite Hsent.
  - exists sent. subst m2. now rewrite Hsent.
  - exists (sent ++ [prompt])%list. subst m3 m2. rewrite Hsent, <- app_assoc.
    split; [reflexivity|].
    apply Forall_app. split; [exact Hall|]. constructor; [|constructor].
    now destruct (generatorPrompt_contents _ _ _ _ _ Hprompt).
  - exists (sent ++ [prompt])%list. subst m3 m2. rewrite Hsent, <- app_assoc.
    split; [reflexivity|].
    apply Forall_app. split; [exact Hall|]. constructor; [|constructor].
    now destruct (generatorPrompt_contents _ _ _ _ _ Hprompt).
Qed.

End RefinedTextFlows.

Section RefinedTextRuns.
Import AIAgent ValidationSpec.

(** The query generator on the sample tables, with no reference query. *)
Lemma generateRedshiftQuery_prompt_contents_witness :
  exists prompt,
    requests (snd (@QueryGenerator.generateRedshiftQuery (Sample.scripted [])
                     "monthly revenue" VNull (VArr [VStr "orders"])
                     (columnsObject [("orders", ["order_id"; "order_amount"])])
                     Sample.agent))
    = [prompt]
    /\ Contains ("User Request: " ++ dq ++ "monthly revenue" ++ dq) prompt
    /\ Contains "Reference Query Pattern: No reference query provided" prompt
    /\ Contains ("Table: orders" ++ nl ++ "Columns: order_id, order_amount") prompt.
Proof.
  pose (host := Sample.scripted []).
  destruct (@generatorPrompt host "monthly revenue" VNull (VArr [VStr "orders"])
              (columnsObject [("orders", ["order_id"; "order_amount"])]))
    as [prompt|e] eqn:Hprompt; [|vm_compute in Hprompt; discriminate].
  destruct (@generateRedshiftQuery_prompt_contents host "monthly revenue" prompt
              VNull (VArr [VStr "orders"])
              (columnsObject [("orders", ["order_id"; "order_amount"])])
              Sample.agent Hprompt)
    as [Hreq [Hu [[info [Hinfo Hi]] [Hnone _]]]].
  exists prompt. split; [exact Hreq|]. split; [exact Hu|].
  split; [exact (Hnone eq_refl)|].
  vm_compute in Hinfo. injection Hinfo as <-. exact Hi.
Defined.

(** The sample agent, refined text and two selections. *)
Lemma later_prompts_quote_refined_text_witness :
  let host :=
    Sample.scripted [inl "monthly revenue"; inl Sample.selectionReply;
                     inl Sample.proseReply] in
  exists sent,
    requests (snd (@processQuery host "sales per month" Sample.agent))
    = InputRefinement.prompt "sales per month" :: sent
    /\ List.length sent = 2
    /\ Forall (Contains ("User Request: " ++ dq ++ "monthly revenue" ++ dq)) sent.
Proof.
  intro host.
  destruct (@later_prompts_quote_refined_text host "sales per month"
              "monthly revenue" Sample.agent eq_refl)
    as [sent [Hreq Hall]].
  exists sent. split; [exact Hreq|]. split; [|exact Hall].
  assert (Hlen : List.length (requests (snd (@processQuery host "sales per month"
                                                Sample.agent))) = 3)
    by (vm_compute; reflexivity).
  rewrite Hreq in Hlen. simpl in Hlen. lia.
Defined.

End RefinedTextRuns.
